(** * GoApiTutorial: the user model and its HTTP handlers

    A shallow embedding of [model.go] (its three variants: SQL text built
    with [fmt.Sprintf], the "Not implemented" stubs, and bind parameters)
    and of the handlers of [app.go], over a model of the parts of Go's
    standard library they call ([strconv], [fmt], [encoding/json],
    [database/sql]) and over an arbitrary database driver. *)

From Stdlib Require Import ZArith List String Ascii Bool Lia.
From Stdlib Require Import DecimalString DecimalPos DecimalZ.
Import ListNotations.
Local Open Scope string_scope.
Local Open Scope Z_scope.

(** ** Go values *)

(** Go's [int] is 64 bits wide on the platforms the tutorial targets.  The
    program never does arithmetic on an [int]: it parses, compares,
    stores and prints them, so an [int] is a [Z] inside these bounds. *)
Definition minInt : Z := - 2 ^ 63.
Definition maxInt : Z := 2 ^ 63 - 1.

(** A Go slice is either [nil] or a (possibly empty) backing sequence;
    [encoding/json] tells the two apart. *)
Inductive slice (A : Type) : Type :=
| nil_slice : slice A
| make (elems : list A) : slice A.
Arguments nil_slice {A}.
Arguments make {A} elems.

Definition append {A : Type} (s : slice A) (x : A) : slice A :=
  match s with
  | nil_slice => make [x]
  | make l => make (l ++ [x])
  end.

(** ** strconv *)

Module strconv.

Inductive NumError : Type := ErrSyntax | ErrRange.

Definition is_digit (c : ascii) : bool :=
  ((48 <=? Z.of_nat (nat_of_ascii c)) && (Z.of_nat (nat_of_ascii c) <=? 57))%bool.

Definition digit_val (c : ascii) : Z := Z.of_nat (nat_of_ascii c) - 48.

Definition maxUint64 : Z := 2 ^ 64 - 1.

(** The loop of [ParseUint(s, 10, 64)]: digits are consumed from the
    left; the first byte that is no digit is a syntax error, and an
    overflow is reported as soon as it happens (so before a later bad
    byte is seen). *)
Fixpoint ParseUint_loop (s : string) (n : Z) : Z * option NumError :=
  match s with
  | EmptyString => (n, None)
  | String c rest =>
      if negb (is_digit c) then (0, Some ErrSyntax)
      else if maxUint64 / 10 + 1 <=? n then (maxUint64, Some ErrRange)
      else
        let n1 := n * 10 + digit_val c in
        if maxUint64 <? n1 then (maxUint64, Some ErrRange)
        else ParseUint_loop rest n1
  end.

Definition ParseUint (s : string) : Z * option NumError :=
  match s with
  | EmptyString => (0, Some ErrSyntax)
  | _ => ParseUint_loop s 0
  end.

(** [ParseInt(s, 10, 64)]. *)
Definition ParseInt (s : string) : Z * option NumError :=
  match s with
  | EmptyString => (0, Some ErrSyntax)
  | String c rest =>
      let neg := Ascii.eqb c "-" in
      let body := if (Ascii.eqb c "+" || neg)%bool then rest else s in
      match ParseUint body with
      | (_, Some ErrSyntax) => (0, Some ErrSyntax)
      | (un, _) =>
          let cutoff := 2 ^ 63 in
          if (negb neg && (cutoff <=? un))%bool then (cutoff - 1, Some ErrRange)
          else if (neg && (cutoff <? un))%bool then (- cutoff, Some ErrRange)
          else (if neg then - un else un, None)
      end
  end.

(** The fast path of [Atoi], taken for 1 to 18 bytes. *)
Fixpoint Atoi_digits (s : string) (n : Z) : option Z :=
  match s with
  | EmptyString => Some n
  | String c rest =>
      if is_digit c then Atoi_digits rest (n * 10 + digit_val c) else None
  end.

Definition Atoi (s : string) : Z * option NumError :=
  let sLen := Z.of_nat (String.length s) in
  if ((0 <? sLen) && (sLen <? 19))%bool then
    match s with
    | EmptyString => (0, Some ErrSyntax)
    | String c rest =>
        let signed := (Ascii.eqb c "-" || Ascii.eqb c "+")%bool in
        let body := if signed then rest else s in
        if (signed && (String.length body =? 0)%nat)%bool then (0, Some ErrSyntax)
        else
          match Atoi_digits body 0 with
          | None => (0, Some ErrSyntax)
          | Some n => (if Ascii.eqb c "-" then - n else n, None)
          end
    end
  else ParseInt s.

(** [Itoa]: the decimal text of an integer, as [%d] prints it. *)
Definition Itoa (z : Z) : string := NilZero.string_of_int (Z.to_int z).

End strconv.

(** ** fmt *)

Module fmt.

(** An operand of [Sprintf]: the program passes [int]s and [string]s. *)
Inductive Arg : Type :=
| d (z : Z)
| s (str : string).

(** [Sprintf] for the verbs the program uses: [%d] with an [int] and
    [%s] with a [string].  Any other directive is copied through (the
    program has none). *)
Fixpoint Sprintf (format : string) (args : list Arg) : string :=
  match format with
  | EmptyString => EmptyString
  | String c rest =>
      if Ascii.eqb c "%" then
        match rest, args with
        | String v rest', a :: args' =>
            match a with
            | d z => if Ascii.eqb v "d" then strconv.Itoa z ++ Sprintf rest' args'
                     else String c (Sprintf rest args)
            | s str => if Ascii.eqb v "s" then str ++ Sprintf rest' args'
                       else String c (Sprintf rest args)
            end
        | _, _ => String c (Sprintf rest args)
        end
      else String c (Sprintf rest args)
  end.

End fmt.

(** ** The record type ([model.go]) *)

Record user : Type := { ID : Z; Name : string; Age : Z }.

(** [var u user]: every field at its zero value. *)
Definition zero_user : user := {| ID := 0; Name := EmptyString; Age := 0 |}.

Definition set_ID (id : Z) (u : user) : user :=
  {| ID := id; Name := Name u; Age := Age u |}.
Definition set_Name (name : string) (u : user) : user :=
  {| ID := ID u; Name := name; Age := Age u |}.
Definition set_Age (age : Z) (u : user) : user :=
  {| ID := ID u; Name := Name u; Age := age |}.

(** ** Go's [error] values

    The handlers tell errors apart in one place only: the [switch] on
    [sql.ErrNoRows], which compares with that one sentinel value.  Every
    other error ([errors.New], a driver's, a conversion's, a decoder's)
    is known to the program by its message alone. *)
Inductive error : Type :=
| ErrNoRows
| Err (msg : string).

Definition Error (e : error) : string :=
  match e with
  | ErrNoRows => "sql: no rows in result set"
  | Err msg => msg
  end.

(** ** encoding/json *)

Module json.

Definition hex_digit (n : nat) : ascii :=
  match String.get n "0123456789abcdef" with
  | Some c => c
  | None => "0"%char
  end.

(** The double quote, byte 34. *)
Definition dquote : ascii := ascii_of_nat 34.
Definition q : string := String dquote EmptyString.

(** How [Marshal] writes one byte below 128 of a string: quote and
    backslash are escaped; backspace, form feed, newline, carriage
    return and tab have short forms; any other control byte and each
    of [<], [>], [&] is written as [\u00XX]; every other byte is
    copied. *)
Definition escape_byte (c : ascii) : string :=
  let n := nat_of_ascii c in
  if (Ascii.eqb c dquote || Ascii.eqb c "\")%bool then String "\" (String c EmptyString)
  else if (n =? 8)%nat then "\b"
  else if (n =? 12)%nat then "\f"
  else if (n =? 10)%nat then "\n"
  else if (n =? 13)%nat then "\r"
  else if (n =? 9)%nat then "\t"
  else if ((n <? 32)%nat || Ascii.eqb c "<" || Ascii.eqb c ">" || Ascii.eqb c "&")%bool
  then "\u00" ++ String (hex_digit (n / 16)) (String (hex_digit (n mod 16)) EmptyString)
  else String c EmptyString.

(** Whether byte [c] lies between [lo] and [hi]. *)
Definition between (lo hi : nat) (c : ascii) : bool :=
  ((lo <=? nat_of_ascii c) && (nat_of_ascii c <=? hi))%nat.

(** [utf8.DecodeRuneInString] at a byte of 128 or more: the number of
    bytes of the rune encoded at the head of [str], or 0 when what is
    there is not valid UTF-8.  A first byte of C2 to DF opens two
    bytes, E0 to EF three, F0 to F4 four; the second byte is a
    continuation byte, 80 to BF, within the narrower range that rules
    out overlong forms (after E0, F0), surrogates (after ED) and
    values above 10FFFF (after F4); the later bytes are continuation
    bytes. *)
Definition rune_size (str : string) : nat :=
  match str with
  | EmptyString => 0
  | String b0 rest =>
      let n := nat_of_ascii b0 in
      if (n <? 194)%nat then 0
      else if (n <=? 223)%nat then
        match rest with
        | String b1 _ => if between 128 191 b1 then 2 else 0
        | _ => 0
        end
      else if (n <=? 239)%nat then
        match rest with
        | String b1 (String b2 _) =>
            if (between (if (n =? 224)%nat then 160 else 128)
                        (if (n =? 237)%nat then 159 else 191) b1
                && between 128 191 b2)%bool
            then 3 else 0
        | _ => 0
        end
      else if (n <=? 244)%nat then
        match rest with
        | String b1 (String b2 (String b3 _)) =>
            if (between (if (n =? 240)%nat then 144 else 128)
                        (if (n =? 244)%nat then 143 else 191) b1
                && between 128 191 b2 && between 128 191 b3)%bool
            then 4 else 0
        | _ => 0
        end
      else 0
  end.

(** The escape of the line separator U+2028 (bytes E2 80 A8) or the
    paragraph separator U+2029 (bytes E2 80 A9) at the head of [str]. *)
Definition separator (str : string) : option string :=
  match str with
  | String b0 (String b1 (String b2 _)) =>
      if ((nat_of_ascii b0 =? 226) && (nat_of_ascii b1 =? 128))%nat
      then if (nat_of_ascii b2 =? 168)%nat then Some "\u2028"
           else if (nat_of_ascii b2 =? 169)%nat then Some "\u2029"
           else None
      else None
  | _ => None
  end.

(** The loop of the string encoder.  [inside] counts the bytes still
    to be copied of a rune that was found valid.  Outside of a rune: a
    byte below 128 is written by [escape_byte]; U+2028 and U+2029 are
    written as escapes; any other valid rune is copied; a byte that
    does not start a valid rune is written as the escape of U+FFFD. *)
Fixpoint escape_from (inside : nat) (str : string) : string :=
  match str with
  | EmptyString => EmptyString
  | String c rest =>
      match inside with
      | Datatypes.S k => String c (escape_from k rest)
      | O =>
          if (nat_of_ascii c <? 128)%nat then escape_byte c ++ escape_from 0 rest
          else
            match separator str, rest with
            | Some esc, String _ (String _ rest') => esc ++ escape_from 0 rest'
            | _, _ =>
                match rune_size str with
                | O => "\ufffd" ++ escape_from 0 rest
                | Datatypes.S k => String c (escape_from k rest)
                end
            end
      end
  end.

Definition escape (str : string) : string := escape_from 0 str.

Definition quote (str : string) : string := q ++ escape str ++ q.

(** The three shapes of value the handlers marshal: a [user], a
    [[]user], and a [map[string]string] with a single entry. *)
Inductive Payload : Type :=
| of_user (u : user)
| of_users (us : slice user)
| of_map (key value : string).

(** A [user] is written with its fields in declaration order under
    the names of their [json] tags. *)
Definition Marshal_user (u : user) : string :=
  "{" ++ quote "id" ++ ":" ++ strconv.Itoa (ID u)
    ++ "," ++ quote "name" ++ ":" ++ quote (Name u)
    ++ "," ++ quote "age" ++ ":" ++ strconv.Itoa (Age u) ++ "}".

Fixpoint Marshal_elems (us : list user) : string :=
  match us with
  | [] => EmptyString
  | [u] => Marshal_user u
  | u :: rest => Marshal_user u ++ "," ++ Marshal_elems rest
  end.

(** A nil slice is written [null], an empty one [[]]. *)
Definition Marshal (p : Payload) : string :=
  match p with
  | of_user u => Marshal_user u
  | of_users nil_slice => "null"
  | of_users (make us) => "[" ++ Marshal_elems us ++ "]"
  | of_map key value => "{" ++ quote key ++ ":" ++ quote value ++ "}"
  end.

(** A request body, seen through [Decode]: the decoder is outside the
    repository, so a body is represented by what decoding it into a
    fresh [user] yields.  [WellFormed u]: [Decode] returns [nil] and
    has filled in [u] (a field the body leaves out stays zero, and an
    id given in the body lands in [ID u]).  [Malformed u msg]: [Decode]
    returns an error, having written [u] so far. *)
Inductive Body : Type :=
| WellFormed (u : user)
| Malformed (u : user) (msg : string).

(** [json.NewDecoder(r.Body).Decode(&u)] for [var u user]. *)
Definition Decode (b : Body) : user * option error :=
  match b with
  | WellFormed u => (u, None)
  | Malformed u msg => (u, Some (Err msg))
  end.

End json.

(** ** database/sql *)

Module sql.

(** A column value or a bind parameter as it crosses the driver
    interface: a 64-bit integer, text, or NULL. *)
Inductive Value : Type :=
| Int (z : Z)
| Text (str : string)
| Null.

(** [sql.Result], which the program always discards. *)
Record Result : Type := { LastInsertId : Z; RowsAffected : Z }.

(** What a successful query streams back: the rows the driver
    delivers, and whether the stream then ended cleanly or with an
    error ([rows.Err()]). *)
Record ResultSet : Type :=
  { delivered : list (list Value); failure : option string }.

Definition no_rows : ResultSet := {| delivered := []; failure := None |}.

(** One statement handed to the driver, with what came back. *)
Inductive Outcome : Type :=
| Failed (msg : string)
| Executed (r : Result)
| Returned (rs : ResultSet).

(** [closing] is how closing the rows of a query ends: [None], or the
    error of [Rows.Close]; a statement that returns no rows has
    nothing to close. *)
Record Call : Type :=
  { statement : string; bound : list Value; outcome : Outcome;
    closing : option string }.

(** A database driver together with the server behind it: executing a
    statement text with its bind parameters moves the server from one
    state of type [S] to the next and either fails with the driver's
    message or succeeds.  [driver_Close] is the driver's [Rows.Close]
    for the rows of a query sent in a given state: [None] when it
    succeeds, its message when it fails.  A driver's own errors are
    never the [ErrNoRows] sentinel of database/sql. *)
Record Driver (S : Type) : Type :=
  { driver_Exec : string -> list Value -> S -> S * (string + Result);
    driver_Query : string -> list Value -> S -> S * (string + ResultSet);
    driver_Close : string -> list Value -> S -> option string }.
Arguments driver_Exec {S}.
Arguments driver_Query {S}.
Arguments driver_Close {S}.

(** The handle [*sql.DB]: the state of the server it is connected to
    and, as history, every statement sent through it so far. *)
Record DB (S : Type) : Type := { server : S; sent : list Call }.
Arguments server {S}.
Arguments sent {S}.

(** A destination of [Scan]: a pointer to an [int] or to a [string]
    inside a value of type [T], given by the assignment it allows. *)
Inductive Dest (T : Type) : Type :=
| int_ptr (set : Z -> T -> T)
| string_ptr (set : string -> T -> T).
Arguments int_ptr {T}.
Arguments string_ptr {T}.

(** [convertAssign]: NULL converts to neither type; text converts to
    an [int] through [strconv.ParseInt]; an integer converts to a
    [string] as its decimal text.  The message of a failed conversion
    is kept short here: database/sql also puts the Go type and the
    text of the driver's value into it. *)
Definition convertAssign {T : Type} (dest : Dest T) (src : Value) (t : T)
  : T + string :=
  match dest, src with
  | int_ptr _, Null => inr "converting NULL to int is unsupported"
  | int_ptr set, Int z => inl (set z t)
  | int_ptr set, Text str =>
      match strconv.ParseInt str with
      | (z, None) => inl (set z t)
      | (_, Some strconv.ErrSyntax) =>
          inr ("converting driver.Value type string to a int: invalid syntax")
      | (_, Some strconv.ErrRange) =>
          inr ("converting driver.Value type string to a int: value out of range")
      end
  | string_ptr _, Null => inr "converting NULL to string is unsupported"
  | string_ptr set, Int z => inl (set (strconv.Itoa z) t)
  | string_ptr set, Text str => inl (set str t)
  end.

(** The loop of [Rows.Scan]: columns are converted from the left, and
    the first failure stops it with the earlier destinations already
    written.  Its message gives the index of the column; database/sql
    adds the column's name, which a [ResultSet] does not carry. *)
Fixpoint Scan_columns {T : Type} (i : Z) (dest : list (Dest T))
         (cols : list Value) (t : T) : T * option error :=
  match dest, cols with
  | dp :: dest', sv :: cols' =>
      match convertAssign dp sv t with
      | inl t' => Scan_columns (i + 1) dest' cols' t'
      | inr msg =>
          (t, Some (Err ("sql: Scan error on column index " ++ strconv.Itoa i
                           ++ ": " ++ msg)))
      end
  | _, _ => (t, None)
  end.

(** [rows.Scan(dest...)] on the current row. *)
Definition Rows_Scan {T : Type} (dest : list (Dest T)) (row : list Value) (t : T)
  : T * option error :=
  if (List.length dest =? List.length row)%nat then Scan_columns 0 dest row t
  else
    (t, Some (Err ("sql: expected " ++ strconv.Itoa (Z.of_nat (List.length row))
                     ++ " destination arguments in Scan, not "
                     ++ strconv.Itoa (Z.of_nat (List.length dest))))).

(** [*sql.Row]: the deferred error of [QueryRow], or its rows
    together with how closing them will end. *)
Inductive Row : Type :=
| row_err (e : error)
| row_rows (rs : ResultSet) (close : option string).

(** [row.Scan(dest...)]: the deferred error if there is one; with no
    first row, the stream's error or else [ErrNoRows] (the rows are
    closed by a [defer] whose error is dropped); otherwise the first
    row is scanned and the rest discarded, and after a scan that
    succeeded the result is that of [r.rows.Close()]: its error is
    returned with the destinations already written. *)
Definition Row_Scan {T : Type} (r : Row) (dest : list (Dest T)) (t : T)
  : T * option error :=
  match r with
  | row_err e => (t, Some e)
  | row_rows rs close =>
      match delivered rs with
      | [] =>
          match failure rs with
          | Some msg => (t, Some (Err msg))
          | None => (t, Some ErrNoRows)
          end
      | row :: _ =>
          match Rows_Scan dest row t with
          | (t, Some e) => (t, Some e)
          | (t, None) =>
              match close with
              | Some msg => (t, Some (Err msg))
              | None => (t, None)
              end
          end
      end
  end.

Section Handle.
Context {S : Type} (drv : Driver S).

Definition record (db : DB S) (s' : S) (c : Call) : DB S :=
  {| server := s'; sent := sent db ++ [c] |}.

(** [db.Exec(query, args...)]. *)
Definition Exec (db : DB S) (query : string) (args : list Value)
  : DB S * (option Result * option error) :=
  match driver_Exec drv query args (server db) with
  | (s', inl msg) =>
      (record db s' {| statement := query; bound := args; outcome := Failed msg;
                       closing := None |},
       (None, Some (Err msg)))
  | (s', inr r) =>
      (record db s' {| statement := query; bound := args; outcome := Executed r;
                       closing := None |},
       (Some r, None))
  end.

(** [db.Query(query, args...)]: the rows and a nil error, or nil
    rows ([no_rows], which no caller looks at) and the error. *)
Definition Query (db : DB S) (query : string) (args : list Value)
  : DB S * (ResultSet * option error) :=
  match driver_Query drv query args (server db) with
  | (s', inl msg) =>
      (record db s' {| statement := query; bound := args; outcome := Failed msg;
                       closing := None |},
       (no_rows, Some (Err msg)))
  | (s', inr rs) =>
      (record db s' {| statement := query; bound := args; outcome := Returned rs;
                       closing := driver_Close drv query args (server db) |},
       (rs, None))
  end.

(** [db.QueryRow(query, args...)]: [Query], with its error deferred
    until [Scan]. *)
Definition QueryRow (db : DB S) (query : string) (args : list Value)
  : DB S * Row :=
  let close := driver_Close drv query args (server db) in
  let '(db, (rows, err)) := Query db query args in
  match err with
  | Some e => (db, row_err e)
  | None => (db, row_rows rows close)
  end.

End Handle.

End sql.

(** ** model.go: what the variants share

    The loop [for rows.Next() { ... }] of [getUsers], which the first
    and the third variant have word for word, over the rows the driver
    delivers: each row is scanned into a fresh [user] and appended; the
    first row that does not scan ends the function with [nil] and the
    error.  [rows.Err()] is not consulted when the rows run out, and the
    error of the deferred [rows.Close()] is dropped. *)
Fixpoint getUsers_loop (rows : list (list sql.Value)) (users : slice user)
  : slice user * option error :=
  match rows with
  | [] => (users, None)
  | row :: rest =>
      let '(u, err) :=
        sql.Rows_Scan [sql.int_ptr set_ID; sql.string_ptr set_Name; sql.int_ptr set_Age]
                      row zero_user in
      match err with
      | Some e => (nil_slice, Some e)
      | None => getUsers_loop rest (append users u)
      end
  end.

(** ** model.go, first variant: SQL text built with [fmt.Sprintf]

    The variant of the repository's own [model.go], written for MySQL:
    every value is formatted into the statement text and no bind
    parameter is passed. *)

Module SprintfVariant.
Section Model.
Context {S : Type} (drv : sql.Driver S).

Definition getUser (u : user) (db : sql.DB S) : sql.DB S * (user * option error) :=
  let statement :=
    fmt.Sprintf "SELECT name, age FROM users WHERE id=%d" [fmt.d (ID u)] in
  let '(db, row) := sql.QueryRow drv db statement [] in
  (db, sql.Row_Scan row [sql.string_ptr set_Name; sql.int_ptr set_Age] u).

Definition updateUser (u : user) (db : sql.DB S) : sql.DB S * option error :=
  let statement :=
    fmt.Sprintf "UPDATE users SET name='%s', age=%d WHERE id=%d"
                [fmt.s (Name u); fmt.d (Age u); fmt.d (ID u)] in
  let '(db, (_, err)) := sql.Exec drv db statement [] in
  (db, err).

Definition deleteUser (u : user) (db : sql.DB S) : sql.DB S * option error :=
  let statement :=
    fmt.Sprintf "DELETE FROM users WHERE id=%d" [fmt.d (ID u)] in
  let '(db, (_, err)) := sql.Exec drv db statement [] in
  (db, err).

Definition createUser (u : user) (db : sql.DB S) : sql.DB S * (user * option error) :=
  let statement :=
    fmt.Sprintf "INSERT INTO users(name, age) VALUES('%s', %d)"
                [fmt.s (Name u); fmt.d (Age u)] in
  let '(db, (_, err)) := sql.Exec drv db statement [] in
  match err with
  | Some e => (db, (u, Some e))
  | None =>
      let '(db, row) := sql.QueryRow drv db "SELECT LAST_INSERT_ID()" [] in
      let '(u, err) := sql.Row_Scan row [sql.int_ptr set_ID] u in
      match err with
      | Some e => (db, (u, Some e))
      | None => (db, (u, None))
      end
  end.

Definition getUsers (db : sql.DB S) (start count : Z)
  : sql.DB S * (slice user * option error) :=
  let statement :=
    fmt.Sprintf "SELECT id, name, age FROM users LIMIT %d OFFSET %d"
                [fmt.d count; fmt.d start] in
  let '(db, (rows, err)) := sql.Query drv db statement [] in
  match err with
  | Some e => (db, (nil_slice, Some e))
  | None => (db, getUsers_loop (sql.delivered rows) (make []))
  end.

End Model.
End SprintfVariant.

(** ** model.go, second variant: the stubs the tutorial starts from *)

Module StubVariant.
Section Model.
Context {S : Type}.

Definition getUser (u : user) (db : sql.DB S) : sql.DB S * (user * option error) :=
  (db, (u, Some (Err "Not implemented"))).

Definition updateUser (u : user) (db : sql.DB S) : sql.DB S * option error :=
  (db, Some (Err "Not implemented")).

Definition deleteUser (u : user) (db : sql.DB S) : sql.DB S * option error :=
  (db, Some (Err "Not implemented")).

Definition createUser (u : user) (db : sql.DB S) : sql.DB S * (user * option error) :=
  (db, (u, Some (Err "Not implemented"))).

Definition getUsers (db : sql.DB S) (start count : Z)
  : sql.DB S * (slice user * option error) :=
  (db, (nil_slice, Some (Err "Not implemented"))).

End Model.
End StubVariant.

(** ** model.go, third variant: bind parameters

    Written for PostgreSQL: the statement text is a constant with
    placeholders [$1], [$2], ... and the values travel as bind
    parameters. *)

Module ParamVariant.
Section Model.
Context {S : Type} (drv : sql.Driver S).

Definition getUser (u : user) (db : sql.DB S) : sql.DB S * (user * option error) :=
  let '(db, row) :=
    sql.QueryRow drv db "SELECT name, age FROM users WHERE id=$1" [sql.Int (ID u)] in
  (db, sql.Row_Scan row [sql.string_ptr set_Name; sql.int_ptr set_Age] u).

Definition updateUser (u : user) (db : sql.DB S) : sql.DB S * option error :=
  let '(db, (_, err)) :=
    sql.Exec drv db "UPDATE users SET name=$1, age=$2 WHERE id=$3"
             [sql.Text (Name u); sql.Int (Age u); sql.Int (ID u)] in
  (db, err).

Definition deleteUser (u : user) (db : sql.DB S) : sql.DB S * option error :=
  let '(db, (_, err)) :=
    sql.Exec drv db "DELETE FROM users WHERE id=$1" [sql.Int (ID u)] in
  (db, err).

Definition createUser (u : user) (db : sql.DB S) : sql.DB S * (user * option error) :=
  let '(db, row) :=
    sql.QueryRow drv db "INSERT INTO users(name, age) VALUES($1, $2) RETURNING id"
                 [sql.Text (Name u); sql.Int (Age u)] in
  let '(u, err) := sql.Row_Scan row [sql.int_ptr set_ID] u in
  match err with
  | Some e => (db, (u, Some e))
  | None => (db, (u, None))
  end.

Definition getUsers (db : sql.DB S) (start count : Z)
  : sql.DB S * (slice user * option error) :=
  let '(db, (rows, err)) :=
    sql.Query drv db "SELECT id, name, age FROM users LIMIT $1 OFFSET $2"
              [sql.Int count; sql.Int start] in
  match err with
  | Some e => (db, (nil_slice, Some e))
  | None => (db, getUsers_loop (sql.delivered rows) (make []))
  end.

End Model.
End ParamVariant.

(** The five operations of a [model.go], as the handlers call them. *)
Record Model (S : Type) : Type :=
  { model_getUser : user -> sql.DB S -> sql.DB S * (user * option error);
    model_updateUser : user -> sql.DB S -> sql.DB S * option error;
    model_deleteUser : user -> sql.DB S -> sql.DB S * option error;
    model_createUser : user -> sql.DB S -> sql.DB S * (user * option error);
    model_getUsers : sql.DB S -> Z -> Z -> sql.DB S * (slice user * option error) }.
Arguments model_getUser {S}.
Arguments model_updateUser {S}.
Arguments model_deleteUser {S}.
Arguments model_createUser {S}.
Arguments model_getUsers {S}.

Definition sprintf_model {S : Type} (drv : sql.Driver S) : Model S :=
  {| model_getUser := SprintfVariant.getUser drv;
     model_updateUser := SprintfVariant.updateUser drv;
     model_deleteUser := SprintfVariant.deleteUser drv;
     model_createUser := SprintfVariant.createUser drv;
     model_getUsers := SprintfVariant.getUsers drv |}.

Definition stub_model {S : Type} : Model S :=
  {| model_getUser := StubVariant.getUser;
     model_updateUser := StubVariant.updateUser;
     model_deleteUser := StubVariant.deleteUser;
     model_createUser := StubVariant.createUser;
     model_getUsers := StubVariant.getUsers |}.

Definition param_model {S : Type} (drv : sql.Driver S) : Model S :=
  {| model_getUser := ParamVariant.getUser drv;
     model_updateUser := ParamVariant.updateUser drv;
     model_deleteUser := ParamVariant.deleteUser drv;
     model_createUser := ParamVariant.createUser drv;
     model_getUsers := ParamVariant.getUsers drv |}.

(** The two variants that talk to a database. *)
Inductive Variant : Type := sprintf | param.

Definition model_of {S : Type} (v : Variant) (drv : sql.Driver S) : Model S :=
  match v with
  | sprintf => sprintf_model drv
  | param => param_model drv
  end.

(** ** net/http, as far as the handlers use it *)

Module http.

Definition StatusOK : Z := 200.
Definition StatusCreated : Z := 201.
Definition StatusBadRequest : Z := 400.
Definition StatusNotFound : Z := 404.
Definition StatusInternalServerError : Z := 500.

(** What a handler reads of a request: the path variable
    [mux.Vars(r)["id"]], the form values [r.FormValue("count")] and
    [r.FormValue("start")] (empty when absent), and the body. *)
Record Request : Type :=
  { Vars_id : string;
    FormValue_count : string;
    FormValue_start : string;
    Body : json.Body }.

(** What a handler writes: the Content-Type header, the status code
    and the body. *)
Record Response : Type :=
  { ContentType : string; Code : Z; Written : string }.

End http.

(** ** app.go: the handlers *)

Module App.

Definition respondWithJSON (code : Z) (payload : json.Payload) : http.Response :=
  let response := json.Marshal payload in
  {| http.ContentType := "application/json";
     http.Code := code;
     http.Written := response |}.

Definition respondWithError (code : Z) (message : string) : http.Response :=
  respondWithJSON code (json.of_map "error" message).

Section Handlers.
Context {S : Type} (m : Model S).

Definition getUser (r : http.Request) (db : sql.DB S) : sql.DB S * http.Response :=
  let '(id, err) := strconv.Atoi (http.Vars_id r) in
  match err with
  | Some _ => (db, respondWithError http.StatusBadRequest "Invalid user ID")
  | None =>
      let u := {| ID := id; Name := EmptyString; Age := 0 |} in
      let '(db, (u, err)) := model_getUser m u db in
      match err with
      | Some ErrNoRows =>
          (db, respondWithError http.StatusNotFound "User not found")
      | Some e =>
          (db, respondWithError http.StatusInternalServerError (Error e))
      | None => (db, respondWithJSON http.StatusOK (json.of_user u))
      end
  end.

Definition getUsers (r : http.Request) (db : sql.DB S) : sql.DB S * http.Response :=
  let '(count, _) := strconv.Atoi (http.FormValue_count r) in
  let '(start, _) := strconv.Atoi (http.FormValue_start r) in
  let count := if ((10 <? count) || (count <? 1))%bool then 10 else count in
  let start := if start <? 0 then 0 else start in
  let '(db, (users, err)) := model_getUsers m db start count in
  match err with
  | Some e => (db, respondWithError http.StatusInternalServerError (Error e))
  | None => (db, respondWithJSON http.StatusOK (json.of_users users))
  end.

Definition createUser (r : http.Request) (db : sql.DB S) : sql.DB S * http.Response :=
  let '(u, err) := json.Decode (http.Body r) in
  match err with
  | Some _ => (db, respondWithError http.StatusBadRequest "Invalid request payload")
  | None =>
      let '(db, (u, err)) := model_createUser m u db in
      match err with
      | Some e => (db, respondWithError http.StatusInternalServerError (Error e))
      | None => (db, respondWithJSON http.StatusCreated (json.of_user u))
      end
  end.

Definition updateUser (r : http.Request) (db : sql.DB S) : sql.DB S * http.Response :=
  let '(id, err) := strconv.Atoi (http.Vars_id r) in
  match err with
  | Some _ => (db, respondWithError http.StatusBadRequest "Invalid user ID")
  | None =>
      let '(u, err) := json.Decode (http.Body r) in
      match err with
      | Some _ =>
          (db, respondWithError http.StatusBadRequest "Invalid resquest payload")
      | None =>
          let u := set_ID id u in
          let '(db, err) := model_updateUser m u db in
          match err with
          | Some e => (db, respondWithError http.StatusInternalServerError (Error e))
          | None => (db, respondWithJSON http.StatusOK (json.of_user u))
          end
      end
  end.

Definition deleteUser (r : http.Request) (db : sql.DB S) : sql.DB S * http.Response :=
  let '(id, err) := strconv.Atoi (http.Vars_id r) in
  match err with
  | Some _ => (db, respondWithError http.StatusBadRequest "Invalid User ID")
  | None =>
      let u := {| ID := id; Name := EmptyString; Age := 0 |} in
      let '(db, err) := model_deleteUser m u db in
      match err with
      | Some e => (db, respondWithError http.StatusInternalServerError (Error e))
      | None => (db, respondWithJSON http.StatusOK (json.of_map "result" "success"))
      end
  end.

End Handlers.
End App.

(** ** A database server to run the program against

    The theorems about the model and the handlers hold for every
    driver.  To run the program on concrete requests this module
    provides two drivers over one small server: a [users] table with
    the schema of the tutorial (an auto-increment [id], a [name] of at
    most 50 characters, a 32-bit [age]) that understands the statements
    the program sends, in the MySQL dialect (values written into the
    text) and in the PostgreSQL dialect (placeholders [$n]).  A text it
    cannot read, or a statement of another shape, is answered with an
    error, as a server answers a syntax error. *)

Module Server.

Inductive token : Type :=
| Word (w : string)
| Num (z : Z)
| Lit (str : string)
| Placeholder (n : Z)
| Sym (c : ascii).

Definition token_eqb (a b : token) : bool :=
  match a, b with
  | Word x, Word y => String.eqb x y
  | Num x, Num y => x =? y
  | Lit x, Lit y => String.eqb x y
  | Placeholder x, Placeholder y => x =? y
  | Sym x, Sym y => Ascii.eqb x y
  | _, _ => false
  end.

Definition is_word_char (c : ascii) : bool :=
  let n := nat_of_ascii c in
  (((65 <=? n) && (n <=? 90)) || ((97 <=? n) && (n <=? 122)) || (n =? 95))%nat%bool.

Definition is_space (c : ascii) : bool :=
  let n := nat_of_ascii c in
  ((n =? 32) || (n =? 9) || (n =? 10) || (n =? 13))%nat%bool.

Definition quote : ascii := "'".

Definition snoc (acc : string) (c : ascii) : string := acc ++ String c EmptyString.

(** Where the lexer stands between two bytes. *)
Inductive mode : Type :=
| Idle
| InWord (acc : string)
| Minus
| InNum (neg : bool) (n : Z)
| Dollar
| InPlaceholder (n : Z)
| InLit (acc : string)
| LitQuote (acc : string)
| LitEscape (acc : string).

(** The tokens complete when the lexer leaves [m]; [None] inside a
    string literal, which has to be closed first. *)
Definition flush (m : mode) : option (list token) :=
  match m with
  | Idle => Some []
  | InWord acc => Some [Word acc]
  | Minus => Some [Sym "-"]
  | InNum neg n => Some [Num (if neg then - n else n)]
  | Dollar => Some [Sym "$"]
  | InPlaceholder n => Some [Placeholder n]
  | LitQuote acc => Some [Lit acc]
  | InLit _ | LitEscape _ => None
  end.

(** The lexer's move on a byte that starts something new. *)
Definition start (c : ascii) : mode * list token :=
  if is_space c then (Idle, [])
  else if Ascii.eqb c quote then (InLit EmptyString, [])
  else if strconv.is_digit c then (InNum false (strconv.digit_val c), [])
  else if is_word_char c then (InWord (String c EmptyString), [])
  else if Ascii.eqb c "-" then (Minus, [])
  else if Ascii.eqb c "$" then (Dollar, [])
  else (Idle, [Sym c]).

Definition restart (m : mode) (c : ascii) : mode * list token :=
  match flush m with
  | Some ts => let '(m', ts') := start c in (m', (ts ++ ts')%list)
  | None => (m, [])
  end.

(** A backslash escape inside a MySQL string literal. *)
Definition unescape (c : ascii) : string :=
  if Ascii.eqb c "n" then String (ascii_of_nat 10) EmptyString
  else if Ascii.eqb c "r" then String (ascii_of_nat 13) EmptyString
  else if Ascii.eqb c "t" then String (ascii_of_nat 9) EmptyString
  else if Ascii.eqb c "0" then String (ascii_of_nat 0) EmptyString
  else if Ascii.eqb c "b" then String (ascii_of_nat 8) EmptyString
  else if Ascii.eqb c "Z" then String (ascii_of_nat 26) EmptyString
  else if (Ascii.eqb c "%" || Ascii.eqb c "_")%bool then String "\" (String c EmptyString)
  else String c EmptyString.

(** One step of the lexer.  Inside a literal a quote is either the
    first half of a doubled quote or the end of the literal, which
    the next byte decides. *)
Definition step (backslash : bool) (m : mode) (c : ascii) : mode * list token :=
  match m with
  | InLit acc =>
      if Ascii.eqb c quote then (LitQuote acc, [])
      else if (backslash && Ascii.eqb c "\")%bool then (LitEscape acc, [])
      else (InLit (snoc acc c), [])
  | LitQuote acc =>
      if Ascii.eqb c quote then (InLit (snoc acc quote), []) else restart m c
  | LitEscape acc => (InLit (acc ++ unescape c), [])
  | InWord acc =>
      if (is_word_char c || strconv.is_digit c)%bool then (InWord (snoc acc c), [])
      else restart m c
  | Minus =>
      if strconv.is_digit c then (InNum true (strconv.digit_val c), []) else restart m c
  | InNum neg n =>
      if strconv.is_digit c then (InNum neg (n * 10 + strconv.digit_val c), [])
      else restart m c
  | Dollar =>
      if strconv.is_digit c then (InPlaceholder (strconv.digit_val c), [])
      else restart m c
  | InPlaceholder n =>
      if strconv.is_digit c then (InPlaceholder (n * 10 + strconv.digit_val c), [])
      else restart m c
  | Idle => restart m c
  end.

Fixpoint lex_from (backslash : bool) (m : mode) (text : string) : option (list token) :=
  match text with
  | EmptyString => flush m
  | String c rest =>
      let '(m', ts) := step backslash m c in
      match lex_from backslash m' rest with
      | Some ts' => Some (ts ++ ts')%list
      | None => None
      end
  end.

Definition lex (backslash : bool) (text : string) : option (list token) :=
  lex_from backslash Idle text.

(** A statement shape is written as its text with [?] where a value
    stands.  [unify] matches the tokens of a statement against the
    tokens of a shape and returns the values found at the [?]s. *)
Definition is_operand (t : token) : bool :=
  match t with
  | Num _ | Lit _ | Placeholder _ => true
  | _ => false
  end.

Fixpoint unify (shape ts : list token) : option (list token) :=
  match shape, ts with
  | [], [] => Some []
  | p :: shape', t :: ts' =>
      if token_eqb p (Sym "?") then
        if is_operand t then
          match unify shape' ts' with
          | Some vs => Some (t :: vs)
          | None => None
          end
        else None
      else if token_eqb p t then unify shape' ts'
      else None
  | _, _ => None
  end.

Inductive Statement : Type :=
| SelectUser
| UpdateUser
| DeleteUser
| InsertUser
| InsertUserReturning
| SelectLastInsertId
| SelectUsers.

Definition shape_of (st : Statement) : string :=
  match st with
  | SelectUser => "SELECT name, age FROM users WHERE id=?"
  | UpdateUser => "UPDATE users SET name=?, age=? WHERE id=?"
  | DeleteUser => "DELETE FROM users WHERE id=?"
  | InsertUser => "INSERT INTO users(name, age) VALUES(?, ?)"
  | InsertUserReturning => "INSERT INTO users(name, age) VALUES(?, ?) RETURNING id"
  | SelectLastInsertId => "SELECT LAST_INSERT_ID()"
  | SelectUsers => "SELECT id, name, age FROM users LIMIT ? OFFSET ?"
  end.

Fixpoint recognise (known : list Statement) (ts : list token)
  : option (Statement * list token) :=
  match known with
  | [] => None
  | st :: known' =>
      match lex false (shape_of st) with
      | Some shape =>
          match unify shape ts with
          | Some vs => Some (st, vs)
          | None => recognise known' ts
          end
      | None => recognise known' ts
      end
  end.

(** The table: its rows in primary-key order, the next auto-increment
    value and the last one handed out. *)
Record Table : Type :=
  { rows : list user; next_id : Z; last_insert_id : Z }.

Definition empty_table : Table :=
  {| rows := []; next_id := 1; last_insert_id := 0 |}.

(** How the server sends a row back.  The MySQL driver delivers every
    column as text; the PostgreSQL driver delivers an integer column
    as an integer. *)
Record Dialect : Type :=
  { backslash_escapes : bool;
    placeholders : bool;
    integers_as_text : bool;
    known : list Statement }.

Definition MySQL : Dialect :=
  {| backslash_escapes := true;
     placeholders := false;
     integers_as_text := true;
     known := [SelectUser; UpdateUser; DeleteUser; InsertUser;
               SelectLastInsertId; SelectUsers] |}.

Definition PostgreSQL : Dialect :=
  {| backslash_escapes := false;
     placeholders := true;
     integers_as_text := false;
     known := [SelectUser; UpdateUser; DeleteUser; InsertUserReturning; SelectUsers] |}.

(** The value of an operand: a literal, or the bind parameter a
    placeholder names. *)
Definition value_of (args : list sql.Value) (t : token) : option sql.Value :=
  match t with
  | Num z => Some (sql.Int z)
  | Lit str => Some (sql.Text str)
  | Placeholder n =>
      if 1 <=? n then nth_error args (Z.to_nat (n - 1)) else None
  | _ => None
  end.

Fixpoint values_of (args : list sql.Value) (ts : list token) : option (list sql.Value) :=
  match ts with
  | [] => Some []
  | t :: ts' =>
      match value_of args t, values_of args ts' with
      | Some v, Some vs => Some (v :: vs)
      | _, _ => None
      end
  end.

Definition count_placeholders (ts : list token) : nat :=
  List.length (filter (fun t => match t with Placeholder _ => true | _ => false end) ts).

Definition int_column (dl : Dialect) (z : Z) : sql.Value :=
  if integers_as_text dl then sql.Text (strconv.Itoa z) else sql.Int z.

Definition fits_schema (name : string) (age : Z) : bool :=
  ((String.length name <=? 50)%nat && (- 2 ^ 31 <=? age) && (age <=? 2 ^ 31 - 1))%bool.

Record Reply : Type :=
  { result : sql.Result; returned : list (list sql.Value) }.

Definition done (affected : Z) (t : Table) : sql.Result :=
  {| sql.LastInsertId := last_insert_id t; sql.RowsAffected := affected |}.

Definition has_id (id : Z) (u : user) : bool := ID u =? id.

(** Carrying out a recognised statement on the table. *)
Definition execute (dl : Dialect) (st : Statement) (vs : list sql.Value) (t : Table)
  : Table * (string + Reply) :=
  match st, vs with
  | SelectUser, [sql.Int id] =>
      (t, inr {| result := done 0 t;
                 returned := map (fun u => [sql.Text (Name u); int_column dl (Age u)])
                                 (filter (has_id id) (rows t)) |})
  | UpdateUser, [sql.Text name; sql.Int age; sql.Int id] =>
      if fits_schema name age then
        let t' := {| rows := map (fun u => if has_id id u
                                           then {| ID := id; Name := name; Age := age |}
                                           else u) (rows t);
                     next_id := next_id t;
                     last_insert_id := last_insert_id t |} in
        (t', inr {| result := done (Z.of_nat (List.length (filter (has_id id) (rows t)))) t';
                    returned := [] |})
      else (t, inl "value out of range for its column")
  | DeleteUser, [sql.Int id] =>
      let t' := {| rows := filter (fun u => negb (has_id id u)) (rows t);
                   next_id := next_id t;
                   last_insert_id := last_insert_id t |} in
      (t', inr {| result := done (Z.of_nat (List.length (filter (has_id id) (rows t)))) t';
                  returned := [] |})
  | InsertUser, [sql.Text name; sql.Int age]
  | InsertUserReturning, [sql.Text name; sql.Int age] =>
      if fits_schema name age then
        let id := next_id t in
        let t' := {| rows := (rows t ++ [{| ID := id; Name := name; Age := age |}])%list;
                     next_id := id + 1;
                     last_insert_id := id |} in
        (t', inr {| result := done 1 t';
                    returned := match st with
                                | InsertUserReturning => [[int_column dl id]]
                                | _ => []
                                end |})
      else (t, inl "value out of range for its column")
  | SelectLastInsertId, [] =>
      (t, inr {| result := done 0 t; returned := [[int_column dl (last_insert_id t)]] |})
  | SelectUsers, [sql.Int limit; sql.Int offset] =>
      if ((0 <=? limit) && (0 <=? offset))%bool then
        (t, inr {| result := done 0 t;
                   returned :=
                     map (fun u => [int_column dl (ID u); sql.Text (Name u);
                                    int_column dl (Age u)])
                         (firstn (Z.to_nat limit) (skipn (Z.to_nat offset) (rows t))) |})
      else (t, inl "LIMIT and OFFSET must not be negative")
  | _, _ => (t, inl "operand of the wrong type")
  end.

(** A statement text with its bind parameters, from the wire to the
    table. *)
Definition run (dl : Dialect) (text : string) (args : list sql.Value) (t : Table)
  : Table * (string + Reply) :=
  match lex (backslash_escapes dl) text with
  | None => (t, inl "syntax error: unterminated string literal")
  | Some ts =>
      if negb (placeholders dl) && (0 <? count_placeholders ts)%nat
      then (t, inl "syntax error near $")
      else if negb (count_placeholders ts =? List.length args)%nat
      then (t, inl ("sql: expected " ++ strconv.Itoa (Z.of_nat (count_placeholders ts))
                      ++ " arguments, got "
                      ++ strconv.Itoa (Z.of_nat (List.length args))))
      else
        match recognise (known dl) ts with
        | None => (t, inl "syntax error")
        | Some (st, operands) =>
            match values_of args operands with
            | None => (t, inl "there is no parameter of that number")
            | Some vs => execute dl st vs t
            end
        end
  end.

(** The server behind the driver interface.  Its rows arrive without a
    failure of the stream, and closing them never fails. *)
Definition driver (dl : Dialect) : sql.Driver Table :=
  {| sql.driver_Exec := fun text args t =>
       match run dl text args t with
       | (t', inl msg) => (t', inl msg)
       | (t', inr reply) => (t', inr (result reply))
       end;
     sql.driver_Query := fun text args t =>
       match run dl text args t with
       | (t', inl msg) => (t', inl msg)
       | (t', inr reply) =>
           (t', inr {| sql.delivered := returned reply; sql.failure := None |})
       end;
     sql.driver_Close := fun _ _ _ => None |}.

Definition connect (t : Table) : sql.DB Table := {| sql.server := t; sql.sent := [] |}.

End Server.

(** ** Vocabulary of the statements proved below *)

(** JSON text is written here with a backquote for each double quote. *)
Fixpoint js (text : string) : string :=
  match text with
  | EmptyString => EmptyString
  | String c rest => String (if Ascii.eqb c "`" then json.dquote else c) (js rest)
  end.

(** The query behind a call came back complete and without a row. *)
Definition returned_no_row (c : sql.Call) : bool :=
  match sql.outcome c with
  | sql.Returned rs =>
      match sql.delivered rs, sql.failure rs with
      | [], None => true
      | _, _ => false
      end
  | _ => false
  end.

(** The driver carried the call out. *)
Definition succeeded (c : sql.Call) : bool :=
  match sql.outcome c with
  | sql.Failed _ => false
  | _ => true
  end.

(** [user{ID: id}]. *)
Definition user_with_id (id : Z) : user := {| ID := id; Name := EmptyString; Age := 0 |}.

(** The destinations [&u.Name, &u.Age] and [&u.ID, &u.Name, &u.Age]. *)
Definition name_age : list (sql.Dest user) := [sql.string_ptr set_Name; sql.int_ptr set_Age].
Definition id_name_age : list (sql.Dest user) :=
  [sql.int_ptr set_ID; sql.string_ptr set_Name; sql.int_ptr set_Age].

(** A destination that leaves the observation [f] of its target alone. *)
Definition leaves {T A : Type} (f : T -> A) (dest : sql.Dest T) : Prop :=
  match dest with
  | sql.int_ptr set => forall z t, f (set z t) = f t
  | sql.string_ptr set => forall str t, f (set str t) = f t
  end.

(** Requests to run the handlers on. *)
Definition request (id count start : string) (body : json.Body) : http.Request :=
  {| http.Vars_id := id;
     http.FormValue_count := count;
     http.FormValue_start := start;
     http.Body := body |}.

Definition no_body : json.Body := json.WellFormed zero_user.

(** The two programs on their servers, and a fresh connection. *)
Definition on_mysql : Model Server.Table := sprintf_model (Server.driver Server.MySQL).
Definition on_postgres : Model Server.Table := param_model (Server.driver Server.PostgreSQL).
Definition fresh : sql.DB Server.Table := Server.connect Server.empty_table.

(** The statement texts and the bind parameters sent so far. *)
Definition texts {S : Type} (db : sql.DB S) : list string :=
  map sql.statement (sql.sent db).
Definition parameters {S : Type} (db : sql.DB S) : list (list sql.Value) :=
  map sql.bound (sql.sent db).

(** The bound of the interval from [lo] to [hi] nearest to [x], or [x]
    itself inside the interval: what clamping [x] to the interval
    means. *)
Definition nearest_bound (lo hi x : Z) : Z :=
  if x <? lo then lo else if hi <? x then hi else x.


(** A driver that gives every statement the same answer, and whose
    rows close without error. *)
Definition canned (exec : string + sql.Result) (query : string + sql.ResultSet)
  : sql.Driver unit :=
  {| sql.driver_Exec := fun _ _ s => (s, exec);
     sql.driver_Query := fun _ _ s => (s, query);
     sql.driver_Close := fun _ _ _ => None |}.


Definition idle : sql.DB unit := {| sql.server := tt; sql.sent := [] |}.

(** Every id in the table is below the next one to be handed out. *)
Definition ids_below_next (t : Server.Table) : Prop :=
  Forall (fun u => ID u < Server.next_id t) (Server.rows t).

Local Open Scope list_scope.

(** The tutorial's tests: TestCreateUser, TestGetUser, TestUpdateUser and TestDeleteUser in
    one session, with a second DELETE added: the status codes are 201,
    200, 200, 200, 200 and 404, on the MySQL server with the
    [fmt.Sprintf] variant and on the PostgreSQL server with the variant
    with bind parameters alike. *)
Definition session (m : Model Server.Table) : list Z :=
  let user := json.WellFormed {| ID := 0; Name := "test user"; Age := 30 |} in
  let update := json.WellFormed {| ID := 0; Name := "test user - updated name"; Age := 21 |} in
  let '(db, r1) := App.createUser m (request "" "" "" user) fresh in
  let '(db, r2) := App.getUser m (request "1" "" "" no_body) db in
  let '(db, r3) := App.updateUser m (request "1" "" "" update) db in
  let '(db, r4) := App.deleteUser m (request "1" "" "" no_body) db in
  let '(db, r5) := App.deleteUser m (request "1" "" "" no_body) db in
  let '(db, r6) := App.getUser m (request "1" "" "" no_body) db in
  map http.Code [r1; r2; r3; r4; r5; r6].

(** ** gorilla/mux, as far as [initializeRoutes] uses it *)

Module mux.

(** A route template, read: literal bytes, and variables of the form
    [{name:[0-9]+}], which match one or more decimal digits. *)
Inductive Part : Type :=
| Literal (c : ascii)
| Digits (name : string).

(** Where the reader of a template stands: in plain text, in the name
    of a variable, or in its pattern. *)
Inductive reading : Type :=
| Plain
| InName (acc : string)
| InPattern (name acc : string).

(** Reading a template.  A variable with another pattern than
    [[0-9]+], or a brace left open, is not read; the program has
    neither. *)
Fixpoint read_template (m : reading) (tpl : string) : option (list Part) :=
  match tpl with
  | EmptyString =>
      match m with
      | Plain => Some []
      | _ => None
      end
  | String c rest =>
      match m with
      | Plain =>
          if Ascii.eqb c "{" then read_template (InName EmptyString) rest
          else option_map (cons (Literal c)) (read_template Plain rest)
      | InName acc =>
          if Ascii.eqb c ":" then read_template (InPattern acc EmptyString) rest
          else read_template (InName (acc ++ String c EmptyString)%string) rest
      | InPattern name acc =>
          if Ascii.eqb c "}" then
            if String.eqb acc "[0-9]+"
            then option_map (cons (Digits name)) (read_template Plain rest)
            else None
          else read_template (InPattern name (acc ++ String c EmptyString)%string) rest
      end
  end.

(** The longest run of digits a text starts with, and what follows. *)
Fixpoint digits_prefix (text : string) : string * string :=
  match text with
  | EmptyString => (EmptyString, EmptyString)
  | String c rest =>
      if strconv.is_digit c
      then let '(ds, tl) := digits_prefix rest in (String c ds, tl)
      else (EmptyString, text)
  end.

(** Matching a whole path against a template: the variables and what
    they matched, or [None]. *)
Fixpoint match_parts (parts : list Part) (path : string) : option (list (string * string)) :=
  match parts with
  | [] =>
      match path with
      | EmptyString => Some []
      | _ => None
      end
  | Literal c :: parts' =>
      match path with
      | String c' rest => if Ascii.eqb c c' then match_parts parts' rest else None
      | EmptyString => None
      end
  | Digits name :: parts' =>
      let '(ds, rest) := digits_prefix path in
      match ds with
      | EmptyString => None
      | _ => option_map (cons (name, ds)) (match_parts parts' rest)
      end
  end.

(** [mux.Vars(r)[key]]: the empty string for a variable that is not
    there. *)
Fixpoint Vars (vars : list (string * string)) (key : string) : string :=
  match vars with
  | [] => EmptyString
  | (k, v) :: vars' => if String.eqb k key then v else Vars vars' key
  end.

End mux.

(** ** app.go: the routes *)

(** The five handlers, as values a route can point to. *)
Inductive Handler : Type :=
| a_getUsers
| a_createUser
| a_getUser
| a_updateUser
| a_deleteUser.

(** [a.Router.HandleFunc(path, handler).Methods(method)]. *)
Record Route : Type :=
  { route_path : string; route_handler : Handler; route_method : string }.

Definition initializeRoutes : list Route :=
  [ {| route_path := "/users"; route_handler := a_getUsers; route_method := "GET" |};
    {| route_path := "/user"; route_handler := a_createUser; route_method := "POST" |};
    {| route_path := "/user/{id:[0-9]+}"; route_handler := a_getUser; route_method := "GET" |};
    {| route_path := "/user/{id:[0-9]+}"; route_handler := a_updateUser; route_method := "PUT" |};
    {| route_path := "/user/{id:[0-9]+}"; route_handler := a_deleteUser;
       route_method := "DELETE" |} ].

(** A route matches a request when its method is the request's and its
    template matches the whole path. *)
Definition route_matches (rt : Route) (method path : string)
  : option (list (string * string)) :=
  if String.eqb (route_method rt) method then
    match mux.read_template mux.Plain (route_path rt) with
    | Some parts => mux.match_parts parts path
    | None => None
    end
  else None.

(** The router tries its routes in the order they were added. *)
Fixpoint Match (routes : list Route) (method path : string)
  : option (Handler * list (string * string)) :=
  match routes with
  | [] => None
  | rt :: routes' =>
      match route_matches rt method path with
      | Some vars => Some (route_handler rt, vars)
      | None => Match routes' method path
      end
  end.

(** A request as it arrives at the router: its method and path, and
    the form values and the body that the handlers read. *)
Record Arriving : Type :=
  { Method : string;
    URL_Path : string;
    Form_count : string;
    Form_start : string;
    Sent : json.Body }.

Definition handle {S : Type} (m : Model S) (h : Handler)
  : http.Request -> sql.DB S -> sql.DB S * http.Response :=
  match h with
  | a_getUsers => App.getUsers m
  | a_createUser => App.createUser m
  | a_getUser => App.getUser m
  | a_updateUser => App.updateUser m
  | a_deleteUser => App.deleteUser m
  end.

(** [a.Router.ServeHTTP(rr, req)], which [executeRequest] of the tests
    calls: the handler of the first matching route runs on the request
    with the variables of the match; [None] when no route matches and
    the router answers by itself. *)
Definition ServeHTTP {S : Type} (m : Model S) (req : Arriving) (db : sql.DB S)
  : option (sql.DB S * http.Response) :=
  match Match initializeRoutes (Method req) (URL_Path req) with
  | None => None
  | Some (h, vars) =>
      Some (handle m h
              {| http.Vars_id := mux.Vars vars "id";
                 http.FormValue_count := Form_count req;
                 http.FormValue_start := Form_start req;
                 http.Body := Sent req |}
              db)
  end.

(** ** app.go: the connection string of [Initialize] *)

(** [connectionString := fmt.Sprintf("%s:%s@/%s", user, password, dbname)]. *)
Definition connectionString (user password dbname : string) : string :=
  fmt.Sprintf "%s:%s@/%s" [fmt.s user; fmt.s password; fmt.s dbname].

(** ** main_test.go: the fixture [addUsers] *)

(** Arithmetic on an [int] wraps around at 64 bits. *)
Definition wrap (z : Z) : Z := (z + 2 ^ 63) mod 2 ^ 64 - 2 ^ 63.

Module main_test.
Section Fixture.
Context {S : Type} (drv : sql.Driver S).

(** The loop [for i := 0; i < count; i++] of [addUsers], with [n]
    rounds to go: each round sends one INSERT and looks at neither
    its result nor its error. *)
Fixpoint addUsers_loop (n : nat) (i : Z) (db : sql.DB S) : sql.DB S :=
  match n with
  | O => db
  | Datatypes.S n' =>
      let statement :=
        fmt.Sprintf "INSERT INTO users(name, age) VALUES('%s', %d)"
                    [fmt.s ("User " ++ strconv.Itoa (wrap (i + 1)))%string;
                     fmt.d (wrap (wrap (i + 1) * 10))] in
      let '(db, _) := sql.Exec drv db statement [] in
      addUsers_loop n' (wrap (i + 1)) db
  end.

Definition addUsers (count : Z) (db : sql.DB S) : sql.DB S :=
  let count := if count <? 1 then 1 else count in
  addUsers_loop (Z.to_nat count) 0 db.

End Fixture.
End main_test.

(** ** More vocabulary *)

(** The number a text of decimal digits stands for. *)
Fixpoint decimal_from (n : Z) (text : string) : Z :=
  match text with
  | EmptyString => n
  | String c rest => decimal_from (n * 10 + strconv.digit_val c) rest
  end.

Definition decimal (text : string) : Z := decimal_from 0 text.

Fixpoint all_digits (text : string) : bool :=
  match text with
  | EmptyString => true
  | String c rest => (strconv.is_digit c && all_digits rest)%bool
  end.

(** A well-formed id of a path: one digit at least, and digits only. *)
Definition is_id (text : string) : bool :=
  (negb (String.eqb text EmptyString) && all_digits text)%bool.

(** What the loop of [getUsers] makes of one row. *)
Definition scanned (row : list sql.Value) : user * option error :=
  sql.Rows_Scan id_name_age row zero_user.

(** The statement of the [k]-th round of [addUsers]. *)
Definition addUsers_statement (k : Z) : string :=
  fmt.Sprintf "INSERT INTO users(name, age) VALUES('%s', %d)"
              [fmt.s ("User " ++ strconv.Itoa k)%string; fmt.d (wrap (k * 10))].

(** The integers from [i + 1] to [i + n]. *)
Fixpoint count_from (i : Z) (n : nat) : list Z :=
  match n with
  | O => []
  | Datatypes.S n' => (i + 1) :: count_from (i + 1) n'
  end.

(** The row the PostgreSQL driver delivers for a user. *)
Definition row_of (u : user) : list sql.Value :=
  [sql.Int (ID u); sql.Text (Name u); sql.Int (Age u)].

(** The parts of a template without variables. *)
Fixpoint literals (text : string) : list mux.Part :=
  match text with
  | EmptyString => []
  | String c rest => mux.Literal c :: literals rest
  end.

(** * Properties *)

(** ** database/sql: what [Scan] writes *)

Section Scan.
Context {T A : Type} (f : T -> A).

Lemma convertAssign_leaves (dest : sql.Dest T) (src : sql.Value) (t t' : T) :
  leaves f dest -> sql.convertAssign dest src t = inl t' -> f t' = f t.
Proof.
  destruct dest as [set|set], src as [z|str|]; cbn; intros Hset Heq;
    try discriminate; try (injection Heq as <-; apply Hset).
  destruct (strconv.ParseInt str) as [z [[|]|]]; try discriminate.
  injection Heq as <-; apply Hset.
Qed.

Lemma Scan_columns_leaves (dest : list (sql.Dest T)) :
  Forall (leaves f) dest ->
  forall cols i t, f (fst (sql.Scan_columns i dest cols t)) = f t.
Proof.
  induction 1 as [|dp dest Hdp _ IH]; intros cols i t; [reflexivity|].
  destruct cols as [|sv cols]; [reflexivity|]. cbn [sql.Scan_columns].
  destruct (sql.convertAssign dp sv t) as [t'|msg] eqn:E; [|reflexivity].
  rewrite IH. eapply convertAssign_leaves; eauto.
Qed.

Lemma Rows_Scan_leaves (dest : list (sql.Dest T)) (row : list sql.Value) (t : T) :
  Forall (leaves f) dest -> f (fst (sql.Rows_Scan dest row t)) = f t.
Proof.
  intros H. unfold sql.Rows_Scan.
  destruct (_ =? _)%nat; [now apply Scan_columns_leaves | reflexivity].
Qed.

Lemma Row_Scan_leaves (r : sql.Row) (dest : list (sql.Dest T)) (t : T) :
  Forall (leaves f) dest -> f (fst (sql.Row_Scan r dest t)) = f t.
Proof.
  intros H. destruct r as [e|rs close]; cbn; [reflexivity|].
  destruct (sql.delivered rs) as [|row rest].
  - now destruct (sql.failure rs).
  - pose proof (Rows_Scan_leaves dest row t H) as Hrow.
    destruct (sql.Rows_Scan dest row t) as [t' [e|]]; [exact Hrow|].
    now destruct close.
Qed.
End Scan.

Lemma name_age_leaves_ID : Forall (leaves ID) name_age.
Proof. repeat constructor. Qed.

(** [ErrNoRows] is never the error of a conversion. *)
Lemma Scan_columns_error {T : Type} (dest : list (sql.Dest T)) :
  forall cols i t e,
    snd (sql.Scan_columns i dest cols t) = Some e -> e <> ErrNoRows.
Proof.
  induction dest as [|dp dest IH]; intros cols i t e; [discriminate|].
  destruct cols as [|sv cols]; [discriminate|]. cbn [sql.Scan_columns].
  destruct (sql.convertAssign dp sv t) as [t'|msg]; [apply IH|].
  cbn. intros [= <-]. discriminate.
Qed.

Lemma Rows_Scan_error {T : Type} (dest : list (sql.Dest T)) (row : list sql.Value)
      (t : T) (e : error) :
  snd (sql.Rows_Scan dest row t) = Some e -> e <> ErrNoRows.
Proof.
  unfold sql.Rows_Scan. destruct (_ =? _)%nat; [apply Scan_columns_error|].
  cbn. intros [= <-]. discriminate.
Qed.

(** ** model.go: the loop of [getUsers] *)

Lemma getUsers_loop_error (rows : list (list sql.Value)) :
  forall users e,
    snd (getUsers_loop rows users) = Some e -> fst (getUsers_loop rows users) = nil_slice.
Proof.
  induction rows as [|row rest IH]; intros users e; cbn [getUsers_loop]; [discriminate|].
  destruct (sql.Rows_Scan _ row zero_user) as [u [e'|]]; [reflexivity | apply IH].
Qed.

Lemma getUsers_loop_fails (rows : list (list sql.Value)) :
  Exists (fun row => snd (sql.Rows_Scan id_name_age row zero_user) <> None) rows ->
  forall users, snd (getUsers_loop rows users) <> None.
Proof.
  induction 1 as [row rest Hrow | row rest _ IH]; intros users; cbn [getUsers_loop];
    fold id_name_age.
  - destruct (sql.Rows_Scan id_name_age row zero_user) as [u [e|]];
      [discriminate | now elim Hrow].
  - destruct (sql.Rows_Scan id_name_age row zero_user) as [u [e|]];
      [discriminate | apply IH].
Qed.

(** A loop that ends without an error has appended one user per row to
    a slice that is not nil. *)
Lemma getUsers_loop_ok (rows : list (list sql.Value)) :
  forall l users,
    getUsers_loop rows (make l) = (users, None) ->
    exists l', users = make (l ++ l') /\ List.length l' = List.length rows.
Proof.
  induction rows as [|row rest IH]; intros l users; cbn [getUsers_loop].
  - intros [= <-]. exists []. now rewrite app_nil_r.
  - destruct (sql.Rows_Scan _ row zero_user) as [u [e|]]; [discriminate|].
    cbn [append]. intros H. destruct (IH _ _ H) as (l' & -> & Hlen).
    exists (u :: l'). rewrite <- app_assoc. cbn. now rewrite Hlen.
Qed.

(** ** model.go against an arbitrary driver *)

Ltac unfold_model :=
  cbv [model_of sprintf_model param_model
       model_getUser model_updateUser model_deleteUser model_createUser model_getUsers
       SprintfVariant.getUser SprintfVariant.updateUser SprintfVariant.deleteUser
       SprintfVariant.createUser SprintfVariant.getUsers
       ParamVariant.getUser ParamVariant.updateUser ParamVariant.deleteUser
       ParamVariant.createUser ParamVariant.getUsers
       sql.QueryRow sql.Query sql.Exec sql.record].

Ltac ask_driver :=
  match goal with
  | |- context [sql.driver_Query ?d ?q ?a ?s] =>
      destruct (sql.driver_Query d q a s) as [? [?|?]]
  | |- context [sql.driver_Exec ?d ?q ?a ?s] =>
      destruct (sql.driver_Exec d q a s) as [? [?|?]]
  end.

Section AnyDriver.
Context {S : Type} (drv : sql.Driver S).

Lemma getUser_ErrNoRows (v : Variant) (u : user) (db : sql.DB S) :
  exists c,
    sql.sent (fst (model_getUser (model_of v drv) u db)) = sql.sent db ++ [c]
    /\ (snd (snd (model_getUser (model_of v drv) u db)) = Some ErrNoRows
        <-> returned_no_row c = true).
Proof.
  destruct v; unfold_model; ask_driver; eexists; (split; [reflexivity|]);
    cbn [fst snd sql.Row_Scan returned_no_row sql.outcome];
    try (split; discriminate);
    (destruct (sql.delivered _) as [|row rest];
     [ destruct (sql.failure _); split; (discriminate || reflexivity)
     | split; [|discriminate];
       destruct (sql.Rows_Scan _ row u) as [u' [e|]] eqn:E;
       [ intros [= ->]; exfalso;
         eapply (Rows_Scan_error _ row u ErrNoRows); [now rewrite E | reflexivity]
       | destruct (sql.driver_Close _ _ _ _); discriminate ] ]).
Qed.

Lemma getUser_ID (v : Variant) (u : user) (db : sql.DB S) :
  ID (fst (snd (model_getUser (model_of v drv) u db))) = ID u.
Proof.
  destruct v; unfold_model; ask_driver; cbn [fst snd];
    apply Row_Scan_leaves, name_age_leaves_ID.
Qed.

End AnyDriver.

(** ** app.go: fetching one user *)

(** C9.  [getUser] never writes the ID field of the record it is called
    on, whether it succeeds or fails; so the user that the handler of
    GET /user/{id} serializes with status 200 carries the id parsed from
    the path. *)
Theorem getUser_keeps_ID {S : Type} (drv : sql.Driver S) (v : Variant)
        (db : sql.DB S) :
  (forall u, ID (fst (snd (model_getUser (model_of v drv) u db))) = ID u)
  /\ (forall r id db' u',
         strconv.Atoi (http.Vars_id r) = (id, None) ->
         model_getUser (model_of v drv) (user_with_id id) db = (db', (u', None)) ->
         App.getUser (model_of v drv) r db
         = (db', App.respondWithJSON http.StatusOK (json.of_user u'))
         /\ ID u' = id).
Proof.
  split; [intros u; apply getUser_ID|].
  intros r id db' u' Hid Hget. split.
  - unfold App.getUser. rewrite Hid. fold (user_with_id id). now rewrite Hget.
  - change id with (ID (user_with_id id)).
    rewrite <- (getUser_ID drv v (user_with_id id) db). now rewrite Hget.
Qed.

(** On the MySQL server with one user in the table, GET /user/1 answers
    200 with id 1. *)
Lemma getUser_keeps_ID_witness :
  snd (App.getUser on_mysql (request "1" "" "" no_body)
         (Server.connect {| Server.rows := [{| ID := 1; Name := "User 1"; Age := 10 |}];
                            Server.next_id := 2;
                            Server.last_insert_id := 1 |}))
  = {| http.ContentType := "application/json";
       http.Code := 200;
       http.Written := js "{`id`:1,`name`:`User 1`,`age`:10}" |}.
Proof.
  pose proof (getUser_keeps_ID (Server.driver Server.MySQL) sprintf
                (Server.connect {| Server.rows := [{| ID := 1; Name := "User 1"; Age := 10 |}];
                                   Server.next_id := 2;
                                   Server.last_insert_id := 1 |})) as [_ H].
  destruct (H (request "1" "" "" no_body) 1 _ _ eq_refl eq_refl) as [E _].
  exact (f_equal snd E).
Defined.

(** C4.  Fetching one user fails with [ErrNoRows] exactly when the query
    came back complete and without a row; the handler of GET /user/{id}
    then answers 404 with the body {"error":"User not found"}, and it
    answers 500 to every other failure of the fetch. *)
Theorem getUser_not_found {S : Type} (drv : sql.Driver S) (v : Variant)
        (r : http.Request) (db : sql.DB S) (id : Z) :
  strconv.Atoi (http.Vars_id r) = (id, None) ->
  let fetched := model_getUser (model_of v drv) (user_with_id id) db in
  let err := snd (snd fetched) in
  let response := snd (App.getUser (model_of v drv) r db) in
  (exists c, sql.sent (fst fetched) = sql.sent db ++ [c]
             /\ (err = Some ErrNoRows <-> returned_no_row c = true))
  /\ (err = Some ErrNoRows ->
      response = {| http.ContentType := "application/json";
                    http.Code := 404;
                    http.Written := js "{`error`:`User not found`}" |})
  /\ (forall e, err = Some e -> e <> ErrNoRows -> http.Code response = 500).
Proof.
  intros Hid fetched err response. split; [apply getUser_ErrNoRows|].
  subst response err. unfold App.getUser. rewrite Hid. fold (user_with_id id).
  fold fetched. destruct fetched as [db' [u' [e|]]]; cbn [fst snd].
  - split.
    + intros [= ->]. reflexivity.
    + intros e' [= <-] He. now destruct e.
  - split; [discriminate|]. intros e [=].
Qed.

(** GET /user/45 on an empty table, the tutorial's own test. *)
Lemma getUser_not_found_witness :
  snd (App.getUser on_mysql (request "45" "" "" no_body) fresh)
  = {| http.ContentType := "application/json";
       http.Code := 404;
       http.Written := js "{`error`:`User not found`}" |}.
Proof.
  destruct (getUser_not_found (Server.driver Server.MySQL) sprintf
              (request "45" "" "" no_body) fresh 45 eq_refl) as (_ & H & _).
  apply H. reflexivity.
Defined.

(** ** app.go: listing users *)

Section Listing.
Context {S : Type} (drv : sql.Driver S).

(** [getUsers] sends one query; a failed query gives [nil] and the
    error, and a successful one gives what the loop makes of its rows. *)
Lemma getUsers_call (v : Variant) (db : sql.DB S) (start count : Z) :
  exists c,
    sql.sent (fst (model_getUsers (model_of v drv) db start count)) = sql.sent db ++ [c]
    /\ snd (model_getUsers (model_of v drv) db start count)
       = match sql.outcome c with
         | sql.Failed msg => (nil_slice, Some (Err msg))
         | sql.Returned rs => getUsers_loop (sql.delivered rs) (make [])
         | sql.Executed _ => (nil_slice, None)
         end
    /\ (forall res, sql.outcome c <> sql.Executed res).
Proof.
  destruct v; unfold_model; ask_driver; eexists;
    (split; [reflexivity|]); split; (reflexivity || discriminate).
Qed.

(** The handler passes the request on to [getUsers] and reports what
    comes back: status 500 for an error, status 200 with the list
    otherwise. *)
Lemma App_getUsers_call (m : Model S) (r : http.Request) (db : sql.DB S) :
  exists start count,
    App.getUsers m r db
    = (fst (model_getUsers m db start count),
       match snd (model_getUsers m db start count) with
       | (_, Some e) => App.respondWithError http.StatusInternalServerError (Error e)
       | (users, None) => App.respondWithJSON http.StatusOK (json.of_users users)
       end).
Proof.
  unfold App.getUsers.
  destruct (strconv.Atoi (http.FormValue_count r)) as [count ?].
  destruct (strconv.Atoi (http.FormValue_start r)) as [start ?].
  exists (if start <? 0 then 0 else start),
    (if ((10 <? count) || (count <? 1))%bool then 10 else count).
  destruct (model_getUsers m db _ _) as [db' [users [e|]]]; reflexivity.
Qed.

End Listing.

(** C8.  When the query succeeds and delivers no row, [getUsers] returns
    an empty slice that is not nil, together with a nil error; the
    handler of GET /users then answers 200 with the body []. *)
Theorem getUsers_empty_not_nil {S : Type} (drv : sql.Driver S) (v : Variant)
        (db : sql.DB S) :
  (forall start count,
      exists c,
        sql.sent (fst (model_getUsers (model_of v drv) db start count)) = sql.sent db ++ [c]
        /\ forall rs,
            sql.outcome c = sql.Returned rs -> sql.delivered rs = [] ->
            snd (model_getUsers (model_of v drv) db start count) = (make [], None))
  /\ (forall r,
         exists c,
           sql.sent (fst (App.getUsers (model_of v drv) r db)) = sql.sent db ++ [c]
           /\ forall rs,
               sql.outcome c = sql.Returned rs -> sql.delivered rs = [] ->
               snd (App.getUsers (model_of v drv) r db)
               = {| http.ContentType := "application/json";
                    http.Code := 200;
                    http.Written := "[]" |}).
Proof.
  split.
  - intros start count.
    destruct (getUsers_call drv v db start count) as (c & Hsent & Hres & _).
    exists c. split; [exact Hsent|]. intros rs Hc Hrows.
    now rewrite Hres, Hc, Hrows.
  - intros r. destruct (App_getUsers_call (model_of v drv) r db) as (start & count & ->).
    destruct (getUsers_call drv v db start count) as (c & Hsent & Hres & _).
    exists c. split; [exact Hsent|]. intros rs Hc Hrows. cbn [snd].
    now rewrite Hres, Hc, Hrows.
Qed.

(** GET /users on an empty table, the tutorial's own test. *)
Lemma getUsers_empty_not_nil_witness :
  snd (App.getUsers on_mysql (request "" "" "" no_body) fresh)
  = {| http.ContentType := "application/json"; http.Code := 200; http.Written := "[]" |}.
Proof.
  destruct (getUsers_empty_not_nil (Server.driver Server.MySQL) sprintf fresh) as [_ H].
  destruct (H (request "" "" "" no_body)) as (c & Hsent & Hc).
  vm_compute in Hsent. injection Hsent as <-. exact (Hc _ eq_refl eq_refl).
Defined.

(** C10.  [getUsers] is all or nothing: an error never comes with a
    list, and as soon as one delivered row fails to scan the result is
    [nil] with an error, whatever rows were scanned before it. *)
Theorem getUsers_all_or_nothing {S : Type} (drv : sql.Driver S) (v : Variant)
        (db : sql.DB S) (start count : Z) :
  let listed := model_getUsers (model_of v drv) db start count in
  (snd (snd listed) <> None -> fst (snd listed) = nil_slice)
  /\ exists c,
      sql.sent (fst listed) = sql.sent db ++ [c]
      /\ forall rs,
          sql.outcome c = sql.Returned rs ->
          Exists (fun row => snd (sql.Rows_Scan id_name_age row zero_user) <> None)
                 (sql.delivered rs) ->
          snd (snd listed) <> None /\ fst (snd listed) = nil_slice.
Proof.
  intros listed. subst listed.
  destruct (getUsers_call drv v db start count) as (c & Hsent & Hres & Hq).
  assert (Hnil : snd (snd (model_getUsers (model_of v drv) db start count)) <> None ->
                 fst (snd (model_getUsers (model_of v drv) db start count)) = nil_slice).
  { rewrite Hres. destruct (sql.outcome c) as [msg|res|rs]; cbn; try reflexivity.
    destruct (snd (getUsers_loop (sql.delivered rs) (make []))) as [e|] eqn:E;
      [intros _; eapply getUsers_loop_error; eauto | congruence]. }
  split; [exact Hnil|]. exists c. split; [exact Hsent|]. intros rs Hc Hbad.
  assert (Herr : snd (snd (model_getUsers (model_of v drv) db start count)) <> None).
  { rewrite Hres, Hc. now apply getUsers_loop_fails. }
  split; [exact Herr | exact (Hnil Herr)].
Qed.

(** The second of two delivered rows has a NULL age: nothing of the
    first row is returned. *)
Lemma getUsers_all_or_nothing_witness :
  let rs := {| sql.delivered := [[sql.Int 1; sql.Text "User 1"; sql.Int 10];
                                 [sql.Int 2; sql.Text "User 2"; sql.Null]];
               sql.failure := None |} in
  let listed := model_getUsers (model_of param (canned (inl "unused") (inr rs))) idle 0 10 in
  snd (snd listed) <> None /\ fst (snd listed) = nil_slice.
Proof.
  intros rs listed.
  destruct (getUsers_all_or_nothing (canned (inl "unused") (inr rs)) param idle 0 10)
    as (_ & c & Hsent & Hc).
  vm_compute in Hsent. injection Hsent as <-. apply (Hc rs eq_refl).
  apply Exists_cons_tl, Exists_cons_hd. discriminate.
Defined.

(** C2, as the code has it.  Whatever the two query parameters are, the
    handler of GET /users passes [getUsers] a count between 1 and 10 and
    a start of at least 0, and answers with an error only when
    [getUsers] returns one: a count that parses to a value from 1 to 10
    is passed as it is and every other count (0, negative, above 10,
    absent or unreadable) is replaced by 10; a negative start is
    replaced by 0. *)
Theorem getUsers_window {S : Type} (m : Model S) (r : http.Request) (db : sql.DB S) :
  let c := fst (strconv.Atoi (http.FormValue_count r)) in
  let s := fst (strconv.Atoi (http.FormValue_start r)) in
  let count := if ((1 <=? c) && (c <=? 10))%bool then c else 10 in
  let start := Z.max 0 s in
  1 <= count <= 10
  /\ 0 <= start
  /\ App.getUsers m r db
     = (fst (model_getUsers m db start count),
        match snd (model_getUsers m db start count) with
        | (_, Some e) => App.respondWithError http.StatusInternalServerError (Error e)
        | (users, None) => App.respondWithJSON http.StatusOK (json.of_users users)
        end).
Proof.
  intros c s count start. repeat split.
  - subst count. destruct (1 <=? c) eqn:E1, (c <=? 10) eqn:E2; cbn; lia.
  - subst count. destruct (1 <=? c) eqn:E1, (c <=? 10) eqn:E2; cbn; lia.
  - subst start. lia.
  - unfold App.getUsers. subst count start c s.
    destruct (strconv.Atoi (http.FormValue_count r)) as [c ?].
    destruct (strconv.Atoi (http.FormValue_start r)) as [s ?]. cbn [fst].
    replace (if ((10 <? c) || (c <? 1))%bool then 10 else c)
      with (if ((1 <=? c) && (c <=? 10))%bool then c else 10)
      by (destruct (1 <=? c) eqn:E1, (c <=? 10) eqn:E2, (10 <? c) eqn:E3, (c <? 1) eqn:E4;
          cbn; lia).
    replace (if s <? 0 then 0 else s) with (Z.max 0 s)
      by (destruct (s <? 0) eqn:E; lia).
    destruct (model_getUsers m db _ _) as [db' [users [e|]]]; reflexivity.
Qed.

(** C2 as it was stated fails for a count of 0: GET /users?count=0 asks
    the database for 10 rows, while the bound of the range from 1 to 10
    nearest to 0 is 1. *)
Lemma getUsers_count_zero :
  let passed := parameters (fst (App.getUsers on_postgres (request "" "0" "" no_body) fresh)) in
  fst (strconv.Atoi "0") = 0
  /\ passed = [[sql.Int 10; sql.Int 0]]
  /\ passed <> [[sql.Int (nearest_bound 1 10 0); sql.Int 0]].
Proof.
  cbv zeta. split; [reflexivity|]. split; [reflexivity|].
  intros H. vm_compute in H. discriminate H.
Qed.

(** ** app.go: updating and deleting *)

Section Writing.
Context {S : Type} (drv : sql.Driver S).

(** [updateUser] and [deleteUser] send one statement each and return
    the driver's error, if any; the [sql.Result] is dropped unread. *)
Lemma updateUser_call (v : Variant) (u : user) (db : sql.DB S) :
  exists c,
    sql.sent (fst (model_updateUser (model_of v drv) u db)) = sql.sent db ++ [c]
    /\ snd (model_updateUser (model_of v drv) u db)
       = match sql.outcome c with
         | sql.Failed msg => Some (Err msg)
         | _ => None
         end
    /\ (forall rs, sql.outcome c <> sql.Returned rs).
Proof.
  destruct v; unfold_model; ask_driver; eexists;
    (split; [reflexivity|]); split; (reflexivity || discriminate).
Qed.

Lemma deleteUser_call (v : Variant) (u : user) (db : sql.DB S) :
  exists c,
    sql.sent (fst (model_deleteUser (model_of v drv) u db)) = sql.sent db ++ [c]
    /\ snd (model_deleteUser (model_of v drv) u db)
       = match sql.outcome c with
         | sql.Failed msg => Some (Err msg)
         | _ => None
         end
    /\ (forall rs, sql.outcome c <> sql.Returned rs).
Proof.
  destruct v; unfold_model; ask_driver; eexists;
    (split; [reflexivity|]); split; (reflexivity || discriminate).
Qed.

(** The handler of DELETE /user/{id}, once the id is read. *)
Lemma App_deleteUser_call (m : Model S) (r : http.Request) (db : sql.DB S) (id : Z) :
  strconv.Atoi (http.Vars_id r) = (id, None) ->
  App.deleteUser m r db
  = (fst (model_deleteUser m (user_with_id id) db),
     match snd (model_deleteUser m (user_with_id id) db) with
     | Some e => App.respondWithError http.StatusInternalServerError (Error e)
     | None => App.respondWithJSON http.StatusOK (json.of_map "result" "success")
     end).
Proof.
  intros Hid. unfold App.deleteUser. rewrite Hid. fold (user_with_id id).
  destruct (model_deleteUser m (user_with_id id) db) as [db' [e|]]; reflexivity.
Qed.

(** The handler of PUT /user/{id}, once the id and the body are read. *)
Lemma App_updateUser_call (m : Model S) (r : http.Request) (db : sql.DB S)
      (id : Z) (u : user) :
  strconv.Atoi (http.Vars_id r) = (id, None) ->
  http.Body r = json.WellFormed u ->
  App.updateUser m r db
  = (fst (model_updateUser m (set_ID id u) db),
     match snd (model_updateUser m (set_ID id u) db) with
     | Some e => App.respondWithError http.StatusInternalServerError (Error e)
     | None => App.respondWithJSON http.StatusOK (json.of_user (set_ID id u))
     end).
Proof.
  intros Hid Hbody. unfold App.updateUser. rewrite Hid, Hbody. cbn [json.Decode].
  destruct (model_updateUser m (set_ID id u) db) as [db' [e|]]; reflexivity.
Qed.

End Writing.

(** C5.  [updateUser] and [deleteUser] return no error whenever the
    driver carries their statement out, whatever number of rows it
    reports as affected, zero included.  So DELETE /user/{id} answers
    200 with {"result":"success"} whenever the statement is carried
    out, and two such requests in a row are both answered that way. *)
Theorem update_delete_ignore_row_count {S : Type} (drv : sql.Driver S) (v : Variant)
        (db : sql.DB S) :
  let m := model_of v drv in
  let success := {| http.ContentType := "application/json";
                    http.Code := 200;
                    http.Written := js "{`result`:`success`}" |} in
  (forall u, exists c,
        sql.sent (fst (model_updateUser m u db)) = sql.sent db ++ [c]
        /\ forall last n,
            sql.outcome c = sql.Executed {| sql.LastInsertId := last; sql.RowsAffected := n |} ->
            snd (model_updateUser m u db) = None)
  /\ (forall u, exists c,
           sql.sent (fst (model_deleteUser m u db)) = sql.sent db ++ [c]
           /\ forall last n,
               sql.outcome c = sql.Executed {| sql.LastInsertId := last; sql.RowsAffected := n |} ->
               snd (model_deleteUser m u db) = None)
  /\ (forall r id,
         strconv.Atoi (http.Vars_id r) = (id, None) ->
         let once := App.deleteUser m r db in
         let twice := App.deleteUser m r (fst once) in
         exists c1 c2,
           sql.sent (fst once) = sql.sent db ++ [c1]
           /\ sql.sent (fst twice) = sql.sent db ++ [c1; c2]
           /\ (succeeded c1 = true -> snd once = success)
           /\ (succeeded c2 = true -> snd twice = success)).
Proof.
  intros m success. subst m. split; [|split].
  - intros u. destruct (updateUser_call drv v u db) as (c & Hsent & -> & _).
    exists c. split; [exact Hsent|]. now intros last n ->.
  - intros u. destruct (deleteUser_call drv v u db) as (c & Hsent & -> & _).
    exists c. split; [exact Hsent|]. now intros last n ->.
  - intros r id Hid once twice. subst once twice.
    rewrite !(App_deleteUser_call (model_of v drv) r _ id Hid). cbn [fst snd].
    destruct (deleteUser_call drv v (user_with_id id) db) as (c1 & Hsent1 & -> & Hc1).
    destruct (deleteUser_call drv v (user_with_id id)
                (fst (model_deleteUser (model_of v drv) (user_with_id id) db)))
      as (c2 & Hsent2 & -> & Hc2).
    exists c1, c2. rewrite Hsent2, Hsent1, <- app_assoc.
    repeat split; unfold succeeded.
    + destruct (sql.outcome c1) as [msg|res|rs]; [discriminate | reflexivity..].
    + destruct (sql.outcome c2) as [msg|res|rs]; [discriminate | reflexivity..].
Qed.

(** The tutorial's delete test, with the request repeated: one user in
    the table, DELETE /user/1 twice, both answered 200. *)
Lemma update_delete_ignore_row_count_witness :
  let db := Server.connect {| Server.rows := [{| ID := 1; Name := "User 1"; Age := 10 |}];
                              Server.next_id := 2;
                              Server.last_insert_id := 1 |} in
  let once := App.deleteUser on_mysql (request "1" "" "" no_body) db in
  let twice := App.deleteUser on_mysql (request "1" "" "" no_body) (fst once) in
  http.Code (snd once) = 200 /\ http.Code (snd twice) = 200
  /\ Server.rows (sql.server (fst once)) = [].
Proof.
  intros db once twice.
  destruct (update_delete_ignore_row_count (Server.driver Server.MySQL) sprintf db)
    as (_ & _ & H).
  destruct (H (request "1" "" "" no_body) 1 eq_refl) as (c1 & c2 & H1 & H2 & Hc1 & Hc2).
  vm_compute in H1, H2. injection H1 as <-. injection H2 as <-.
  split; [exact (f_equal http.Code (Hc1 eq_refl))|].
  split; [exact (f_equal http.Code (Hc2 eq_refl)) | reflexivity].
Defined.

(** C6.  The handler of PUT /user/{id} hands [updateUser] the decoded
    record with its id replaced by the id of the path, and on success
    answers 200 with that same record: the id of the body plays no
    part, and nothing is read back from the database. *)
Theorem updateUser_uses_path_id {S : Type} (drv : sql.Driver S) (m : Model S)
        (r : http.Request) (db : sql.DB S) (id : Z) (u : user) :
  strconv.Atoi (http.Vars_id r) = (id, None) ->
  http.Body r = json.WellFormed u ->
  let given := {| ID := id; Name := Name u; Age := Age u |} in
  App.updateUser m r db
  = (fst (model_updateUser m given db),
     match snd (model_updateUser m given db) with
     | Some e => App.respondWithError http.StatusInternalServerError (Error e)
     | None => App.respondWithJSON http.StatusOK (json.of_user given)
     end)
  /\ (forall r' i,
         http.Vars_id r' = http.Vars_id r ->
         http.Body r' = json.WellFormed (set_ID i u) ->
         App.updateUser m r' db = App.updateUser m r db)
  /\ (forall v, exists c,
           sql.sent (fst (model_updateUser (model_of v drv) given db)) = sql.sent db ++ [c]
           /\ forall rs, sql.outcome c <> sql.Returned rs).
Proof.
  intros Hid Hbody given. split; [|split].
  - exact (App_updateUser_call m r db id u Hid Hbody).
  - intros r' i Hpath Hbody'. rewrite <- Hpath in Hid.
    rewrite (App_updateUser_call m r' db id _ Hid Hbody').
    rewrite Hpath in Hid. now rewrite (App_updateUser_call m r db id u Hid Hbody).
  - intros v. destruct (updateUser_call drv v given db) as (c & Hsent & _ & Hc).
    now exists c.
Qed.

(** The tutorial's update test, with an id of 5 in the body: the
    answer carries the id 1 of the path. *)
Lemma updateUser_uses_path_id_witness :
  snd (App.updateUser on_mysql
         (request "1" "" ""
                  (json.WellFormed {| ID := 5; Name := "test user - updated name"; Age := 21 |}))
         (Server.connect {| Server.rows := [{| ID := 1; Name := "User 1"; Age := 10 |}];
                            Server.next_id := 2;
                            Server.last_insert_id := 1 |}))
  = {| http.ContentType := "application/json";
       http.Code := 200;
       http.Written := js "{`id`:1,`name`:`test user - updated name`,`age`:21}" |}.
Proof.
  destruct (updateUser_uses_path_id (Server.driver Server.MySQL) on_mysql
              (request "1" "" ""
                 (json.WellFormed {| ID := 5; Name := "test user - updated name"; Age := 21 |}))
              (Server.connect {| Server.rows := [{| ID := 1; Name := "User 1"; Age := 10 |}];
                                 Server.next_id := 2;
                                 Server.last_insert_id := 1 |})
              1 _ eq_refl eq_refl) as (E & _).
  exact (f_equal snd E).
Defined.

(** ** app.go: creating a user *)


Section Creating.
Context {S : Type} (drv : sql.Driver S).



End Creating.




(** ** model.go: the statement text handed to the driver *)

Ltac sent_text :=
  unfold texts, parameters; unfold_model;
  repeat (ask_driver; cbn [fst snd sql.sent]);
  rewrite ?map_app; reflexivity.

(** In the variant with bind parameters every operation hands the
    driver one constant text, and the values travel beside it. *)
Lemma param_text_is_fixed {S : Type} (drv : sql.Driver S) (db : sql.DB S)
      (u : user) (start count : Z) :
  (texts (fst (ParamVariant.getUser drv u db))
   = texts db ++ ["SELECT name, age FROM users WHERE id=$1"]
   /\ parameters (fst (ParamVariant.getUser drv u db))
      = parameters db ++ [[sql.Int (ID u)]])
  /\ (texts (fst (ParamVariant.updateUser drv u db))
      = texts db ++ ["UPDATE users SET name=$1, age=$2 WHERE id=$3"]
      /\ parameters (fst (ParamVariant.updateUser drv u db))
         = parameters db ++ [[sql.Text (Name u); sql.Int (Age u); sql.Int (ID u)]])
  /\ (texts (fst (ParamVariant.deleteUser drv u db))
      = texts db ++ ["DELETE FROM users WHERE id=$1"]
      /\ parameters (fst (ParamVariant.deleteUser drv u db))
         = parameters db ++ [[sql.Int (ID u)]])
  /\ (texts (fst (ParamVariant.createUser drv u db))
      = texts db ++ ["INSERT INTO users(name, age) VALUES($1, $2) RETURNING id"]
      /\ parameters (fst (ParamVariant.createUser drv u db))
         = parameters db ++ [[sql.Text (Name u); sql.Int (Age u)]])
  /\ (texts (fst (ParamVariant.getUsers drv db start count))
      = texts db ++ ["SELECT id, name, age FROM users LIMIT $1 OFFSET $2"]
      /\ parameters (fst (ParamVariant.getUsers drv db start count))
         = parameters db ++ [[sql.Int count; sql.Int start]]).
Proof.
  repeat split; try sent_text.
  - unfold texts. unfold_model. ask_driver; cbn [fst snd sql.sent];
      destruct (sql.Row_Scan _ _ u) as [u' [e|]]; cbn [fst sql.sent];
      rewrite map_app; reflexivity.
  - unfold parameters. unfold_model. ask_driver; cbn [fst snd sql.sent];
      destruct (sql.Row_Scan _ _ u) as [u' [e|]]; cbn [fst sql.sent];
      rewrite map_app; reflexivity.
Qed.

(** Two runs of an operation of that variant on different values hand
    the driver the same text. *)
Lemma param_text_two_runs {S : Type} (drv : sql.Driver S) (db : sql.DB S)
      (u1 u2 : user) (start1 count1 start2 count2 : Z) :
  texts (fst (ParamVariant.getUser drv u1 db)) = texts (fst (ParamVariant.getUser drv u2 db))
  /\ texts (fst (ParamVariant.updateUser drv u1 db))
     = texts (fst (ParamVariant.updateUser drv u2 db))
  /\ texts (fst (ParamVariant.deleteUser drv u1 db))
     = texts (fst (ParamVariant.deleteUser drv u2 db))
  /\ texts (fst (ParamVariant.createUser drv u1 db))
     = texts (fst (ParamVariant.createUser drv u2 db))
  /\ texts (fst (ParamVariant.getUsers drv db start1 count1))
     = texts (fst (ParamVariant.getUsers drv db start2 count2)).
Proof.
  destruct (param_text_is_fixed drv db u1 start1 count1)
    as ((-> & _) & (-> & _) & (-> & _) & (-> & _) & (-> & _)).
  destruct (param_text_is_fixed drv db u2 start2 count2)
    as ((-> & _) & (-> & _) & (-> & _) & (-> & _) & (-> & _)).
  repeat split.
Qed.

(** [Itoa] writes different integers differently. *)
Lemma Itoa_inj (a b : Z) : strconv.Itoa a = strconv.Itoa b -> a = b.
Proof.
  unfold strconv.Itoa. intros H. apply DecimalZ.to_int_inj.
  assert (Hparse : forall z,
             NilZero.int_of_string (NilZero.string_of_int (Z.to_int z)) = Some (Z.to_int z)).
  { intros z. apply NilZero.isi; destruct z as [|p|p]; cbn; try discriminate;
      intros [= Hp]; now apply (Unsigned.to_uint_nonnil p). }
  pose proof (Hparse a) as Ha. rewrite H, Hparse in Ha. now injection Ha.
Qed.

Lemma singleton_inj {A : Type} (x y : A) : [x] = [y] -> x = y.
Proof.
  now intros [= ->].
Qed.

Lemma append_inj (prefix x y : string) :
  (prefix ++ x)%string = (prefix ++ y)%string -> x = y.
Proof.
  induction prefix as [|c prefix IH]; cbn; [trivial|]. intros [= H]. now apply IH.
Qed.

Lemma append_empty (x : string) : (x ++ EmptyString)%string = x.
Proof.
  induction x as [|c x IH]; cbn; [reflexivity | now rewrite IH].
Qed.

(** The text of the fetch in the [fmt.Sprintf] variant ends in the
    decimal digits of the id, and so determines the id. *)
Lemma sprintf_select_text (a : Z) :
  fmt.Sprintf "SELECT name, age FROM users WHERE id=%d" [fmt.d a]
  = ("SELECT name, age FROM users WHERE id=" ++ strconv.Itoa a)%string.
Proof.
  cbn [fmt.Sprintf Ascii.eqb Bool.eqb String.append]. now rewrite append_empty.
Qed.

Lemma sprintf_select_inj (a b : Z) :
  fmt.Sprintf "SELECT name, age FROM users WHERE id=%d" [fmt.d a]
  = fmt.Sprintf "SELECT name, age FROM users WHERE id=%d" [fmt.d b] ->
  a = b.
Proof.
  rewrite !sprintf_select_text. intros H. now apply append_inj, Itoa_inj in H.
Qed.

(** C1 fails for the variant of [model.go] that builds its text with
    [fmt.Sprintf]: no bind parameter is passed and the values are part
    of the text, so two fetches of different ids always hand the driver
    different texts, and a name with a quote in it changes the
    statement that the text spells. *)
Theorem sprintf_text_carries_values {S : Type} (drv : sql.Driver S) (db : sql.DB S) :
  (forall u1 u2,
      ID u1 <> ID u2 ->
      texts (fst (SprintfVariant.getUser drv u1 db))
      <> texts (fst (SprintfVariant.getUser drv u2 db)))
  /\ (texts (fst (SprintfVariant.getUser drv (user_with_id 1) db))
      = texts db ++ ["SELECT name, age FROM users WHERE id=1"]
      /\ texts (fst (SprintfVariant.getUser drv (user_with_id 2) db))
         = texts db ++ ["SELECT name, age FROM users WHERE id=2"]
      /\ parameters (fst (SprintfVariant.getUser drv (user_with_id 1) db))
         = parameters db ++ [[]])
  /\ (texts (fst (SprintfVariant.deleteUser drv (user_with_id 1) db))
      = texts db ++ ["DELETE FROM users WHERE id=1"]
      /\ texts (fst (SprintfVariant.deleteUser drv (user_with_id 2) db))
         = texts db ++ ["DELETE FROM users WHERE id=2"])
  /\ (texts (fst (SprintfVariant.getUsers drv db 0 10))
      = texts db ++ ["SELECT id, name, age FROM users LIMIT 10 OFFSET 0"]
      /\ texts (fst (SprintfVariant.getUsers drv db 5 3))
         = texts db ++ ["SELECT id, name, age FROM users LIMIT 3 OFFSET 5"])
  /\ (texts (fst (SprintfVariant.updateUser
                    drv {| ID := 1; Name := "x', age=0 WHERE 1=1 -- "; Age := 5 |} db))
      = texts db ++ ["UPDATE users SET name='x', age=0 WHERE 1=1 -- ', age=5 WHERE id=1"])
  /\ (exists rest,
         texts (fst (SprintfVariant.createUser
                       drv {| ID := 0; Name := "O'Brien"; Age := 30 |} db))
         = texts db ++ "INSERT INTO users(name, age) VALUES('O'Brien', 30)" :: rest).
Proof.
  split.
  { intros u1 u2 Hne Heq. apply Hne, sprintf_select_inj.
    assert (Htext : forall u,
               texts (fst (SprintfVariant.getUser drv u db))
               = texts db
                 ++ [fmt.Sprintf "SELECT name, age FROM users WHERE id=%d" [fmt.d (ID u)]])
      by (intros u; sent_text).
    rewrite !Htext in Heq. apply app_inv_head in Heq.
    now apply singleton_inj in Heq. }
  repeat split; try sent_text.
  unfold texts. unfold_model. ask_driver; cbn [fst snd sql.sent].
  - exists []. rewrite map_app. reflexivity.
  - ask_driver; cbn [fst snd sql.sent];
      destruct (sql.Row_Scan _ _ _) as [u' [e|]]; cbn [fst sql.sent];
      eexists; rewrite <- app_assoc, map_app; reflexivity.
Qed.

(** ** The program on its servers: create, then fetch *)

(** C3 fails for the variant that builds its text with [fmt.Sprintf],
    on the MySQL server.  The name O'Brien ends the string literal of
    the INSERT after its first letter: the server rejects the text,
    [createUser] returns the error, POST /user answers 500 and no row
    is stored.  The name a''b is accepted, but the doubled quote is
    SQL's way of writing one quote: the row stored and fetched back has
    the name a'b. *)
Theorem sprintf_round_trip_breaks :
  let obrien := {| ID := 0; Name := "O'Brien"; Age := 30 |} in
  let created := model_createUser on_mysql obrien fresh in
  let doubled := {| ID := 0; Name := "a''b"; Age := 30 |} in
  let created' := model_createUser on_mysql doubled fresh in
  let fetched' :=
    model_getUser on_mysql (user_with_id (ID (fst (snd created')))) (fst created') in
  (texts (fst created) = ["INSERT INTO users(name, age) VALUES('O'Brien', 30)"]
   /\ snd (snd created) <> None
   /\ Server.rows (sql.server (fst created)) = []
   /\ http.Code (snd (App.createUser on_mysql
                        (request "" "" "" (json.WellFormed obrien)) fresh)) = 500)
  /\ (snd created' = ({| ID := 1; Name := "a''b"; Age := 30 |}, None)
      /\ snd fetched' = ({| ID := 1; Name := "a'b"; Age := 30 |}, None)).
Proof.
  cbv zeta. repeat split. vm_compute. discriminate.
Qed.

(** The same two names through the variant with bind parameters, on the
    PostgreSQL server: both come back as they went in. *)
Example param_round_trip_quotes :
  let obrien := {| ID := 0; Name := "O'Brien"; Age := 30 |} in
  let doubled := {| ID := 0; Name := "a''b"; Age := 30 |} in
  let created := model_createUser on_postgres obrien fresh in
  let created' := model_createUser on_postgres doubled (fst created) in
  snd (model_getUser on_postgres (user_with_id 1) (fst created'))
  = ({| ID := 1; Name := "O'Brien"; Age := 30 |}, None)
  /\ snd (model_getUser on_postgres (user_with_id 2) (fst created'))
     = ({| ID := 2; Name := "a''b"; Age := 30 |}, None).
Proof.
  cbv zeta. split; reflexivity.
Qed.

Section OnPostgres.

Lemma filter_has_id_fresh (id : Z) (rows : list user) :
  Forall (fun u => ID u < id) rows -> filter (Server.has_id id) rows = [].
Proof.
  induction 1 as [|u rows Hu _ IH]; [reflexivity|]. cbn [filter].
  unfold Server.has_id at 1. destruct (ID u =? id) eqn:E; [lia | exact IH].
Qed.

(** X14.  Round trip in the variant with bind parameters, on the
    PostgreSQL server: whatever the name is (quotes and backslashes
    included), a user that fits the schema is created under the next
    id, and fetching that id returns the name and the age that went
    in. *)
Lemma param_round_trip (t : Server.Table) (sent : list sql.Call) (u : user) :
  ids_below_next t ->
  Server.fits_schema (Name u) (Age u) = true ->
  let db := {| sql.server := t; sql.sent := sent |} in
  let created := model_createUser on_postgres u db in
  let fetched :=
    model_getUser on_postgres (user_with_id (ID (fst (snd created)))) (fst created) in
  snd created = ({| ID := Server.next_id t; Name := Name u; Age := Age u |}, None)
  /\ snd fetched = ({| ID := Server.next_id t; Name := Name u; Age := Age u |}, None).
Proof.
  intros Hids Hfits db created fetched.
  assert (Hcreated :
            model_createUser on_postgres u db
            = ({| sql.server :=
                    {| Server.rows := Server.rows t
                                      ++ [{| ID := Server.next_id t; Name := Name u;
                                             Age := Age u |}];
                       Server.next_id := Server.next_id t + 1;
                       Server.last_insert_id := Server.next_id t |};
                  sql.sent :=
                    sent ++ [{| sql.statement :=
                                  "INSERT INTO users(name, age) VALUES($1, $2) RETURNING id";
                                sql.bound := [sql.Text (Name u); sql.Int (Age u)];
                                sql.outcome :=
                                  sql.Returned
                                    {| sql.delivered := [[sql.Int (Server.next_id t)]];
                                       sql.failure := None |};
                                sql.closing := None |}] |},
               ({| ID := Server.next_id t; Name := Name u; Age := Age u |}, None))).
  { subst db. unfold on_postgres. cbn [model_createUser param_model].
    unfold ParamVariant.createUser, sql.QueryRow, sql.Query.
    cbn [sql.server sql.driver_Query sql.driver_Close Server.driver].
    change (Server.run Server.PostgreSQL
              "INSERT INTO users(name, age) VALUES($1, $2) RETURNING id"
              [sql.Text (Name u); sql.Int (Age u)] t)
      with (Server.execute Server.PostgreSQL Server.InsertUserReturning
              [sql.Text (Name u); sql.Int (Age u)] t).
    cbn [Server.execute]. rewrite Hfits. reflexivity. }
  subst fetched created. rewrite Hcreated. split; [reflexivity|]. cbn [fst snd ID].
  unfold on_postgres. cbn [model_getUser param_model].
  unfold ParamVariant.getUser, sql.QueryRow, sql.Query.
  cbn [sql.server sql.driver_Query sql.driver_Close Server.driver user_with_id ID].
  change (Server.run Server.PostgreSQL "SELECT name, age FROM users WHERE id=$1"
            [sql.Int (Server.next_id t)] ?t')
    with (Server.execute Server.PostgreSQL Server.SelectUser [sql.Int (Server.next_id t)] t').
  cbn [Server.execute Server.rows]. rewrite filter_app, (filter_has_id_fresh _ _ Hids).
  cbn [filter app]. unfold Server.has_id. cbn [ID]. rewrite Z.eqb_refl.
  reflexivity.
Qed.

End OnPostgres.

Section OnPostgresMore.
Context (t : Server.Table) (sent : list sql.Call).

(** On the PostgreSQL server a fetch fails with [ErrNoRows] exactly when
    the table has no row of that id. *)
Lemma param_getUser_no_row (id : Z) :
  snd (snd (model_getUser on_postgres (user_with_id id)
              {| sql.server := t; sql.sent := sent |})) = Some ErrNoRows
  <-> filter (Server.has_id id) (Server.rows t) = [].
Proof.
  unfold on_postgres. cbn [model_getUser param_model].
  unfold ParamVariant.getUser, sql.QueryRow, sql.Query.
  cbn [sql.server sql.driver_Query sql.driver_Close Server.driver user_with_id ID].
  change (Server.run Server.PostgreSQL "SELECT name, age FROM users WHERE id=$1"
            [sql.Int id] t)
    with (Server.execute Server.PostgreSQL Server.SelectUser [sql.Int id] t).
  cbn [Server.execute snd sql.Row_Scan sql.delivered sql.failure Server.returned].
  destruct (filter (Server.has_id id) (Server.rows t)) as [|u rest]; cbn [map].
  - split; reflexivity.
  - split; discriminate.
Qed.

(** On the PostgreSQL server a delete succeeds whether or not the table
    has a row of that id, and leaves no row of that id behind. *)
Lemma param_deleteUser_any_id (id : Z) :
  let deleted := model_deleteUser on_postgres (user_with_id id)
                                  {| sql.server := t; sql.sent := sent |} in
  snd deleted = None
  /\ Server.rows (sql.server (fst deleted))
     = filter (fun u => negb (Server.has_id id u)) (Server.rows t).
Proof.
  unfold on_postgres. cbn [model_deleteUser param_model].
  unfold ParamVariant.deleteUser, sql.Exec.
  cbn [sql.server sql.driver_Exec Server.driver user_with_id ID].
  change (Server.run Server.PostgreSQL "DELETE FROM users WHERE id=$1" [sql.Int id] t)
    with (Server.execute Server.PostgreSQL Server.DeleteUser [sql.Int id] t).
  cbn. split; reflexivity.
Qed.

End OnPostgresMore.

(** ** The tutorial's tests, run on both servers *)

Example session_on_mysql : session on_mysql = [201; 200; 200; 200; 200; 404].
Proof. vm_compute. reflexivity. Qed.

Example session_on_postgres : session on_postgres = [201; 200; 200; 200; 200; 404].
Proof. vm_compute. reflexivity. Qed.

(** With the stubs every request that reaches the model is answered 500
    with the text Not implemented. *)
Example session_on_stubs :
  session stub_model = [500; 500; 500; 500; 500; 500]
  /\ snd (App.getUsers stub_model (request "" "" "" no_body) fresh)
     = {| http.ContentType := "application/json";
          http.Code := 500;
          http.Written := js "{`error`:`Not implemented`}" |}.
Proof. split; vm_compute; reflexivity. Qed.

(** ** strconv and fmt on the values of the tutorial *)

Example Atoi_examples :
  strconv.Atoi "12" = (12, None)
  /\ strconv.Atoi "-7" = (-7, None)
  /\ strconv.Atoi "" = (0, Some strconv.ErrSyntax)
  /\ strconv.Atoi "ten" = (0, Some strconv.ErrSyntax)
  /\ strconv.Atoi "99999999999999999999" = (maxInt, Some strconv.ErrRange)
  /\ strconv.Atoi "-99999999999999999999" = (minInt, Some strconv.ErrRange).
Proof. repeat split. Qed.

Example Sprintf_examples :
  fmt.Sprintf "SELECT name, age FROM users WHERE id=%d" [fmt.d 45]
  = "SELECT name, age FROM users WHERE id=45"
  /\ fmt.Sprintf "INSERT INTO users(name, age) VALUES('%s', %d)" [fmt.s "User 1"; fmt.d 10]
     = "INSERT INTO users(name, age) VALUES('User 1', 10)".
Proof. split; reflexivity. Qed.

(** * Further properties *)

(** ** app.go: what each handler answers, whatever the model does *)

Section AnyModel.
Context {S : Type} (m : Model S).

(** GET /user/{id} is answered 400 exactly when the id cannot be read;
    nothing is done to the database then. *)
Lemma App_getUser_400 (r : http.Request) (db : sql.DB S) :
  (http.Code (snd (App.getUser m r db)) = 400
   <-> snd (strconv.Atoi (http.Vars_id r)) <> None)
  /\ (http.Code (snd (App.getUser m r db)) = 400 -> fst (App.getUser m r db) = db).
Proof.
  unfold App.getUser. destruct (strconv.Atoi (http.Vars_id r)) as [id [e|]]; cbn [snd fst].
  - repeat split; trivial. discriminate.
  - destruct (model_getUser m _ db) as [db' [u' [[|msg]|]]]; cbn;
      repeat split; try discriminate; intros H; now elim H.
Qed.

Lemma App_deleteUser_400 (r : http.Request) (db : sql.DB S) :
  (http.Code (snd (App.deleteUser m r db)) = 400
   <-> snd (strconv.Atoi (http.Vars_id r)) <> None)
  /\ (http.Code (snd (App.deleteUser m r db)) = 400 -> fst (App.deleteUser m r db) = db).
Proof.
  unfold App.deleteUser. destruct (strconv.Atoi (http.Vars_id r)) as [id [e|]]; cbn [snd fst].
  - repeat split; trivial. discriminate.
  - destruct (model_deleteUser m _ db) as [db' [e|]]; cbn;
      repeat split; try discriminate; intros H; now elim H.
Qed.

Lemma App_updateUser_400 (r : http.Request) (db : sql.DB S) :
  (http.Code (snd (App.updateUser m r db)) = 400
   <-> snd (strconv.Atoi (http.Vars_id r)) <> None
       \/ snd (json.Decode (http.Body r)) <> None)
  /\ (http.Code (snd (App.updateUser m r db)) = 400 -> fst (App.updateUser m r db) = db).
Proof.
  unfold App.updateUser. destruct (strconv.Atoi (http.Vars_id r)) as [id [e|]]; cbn [snd fst].
  - repeat split; trivial. left. discriminate.
  - destruct (json.Decode (http.Body r)) as [u [e|]]; cbn [snd fst].
    + repeat split; trivial. right. discriminate.
    + destruct (model_updateUser m _ db) as [db' [e|]]; cbn;
        repeat split; try discriminate; intros [H|H]; now elim H.
Qed.

Lemma App_createUser_400 (r : http.Request) (db : sql.DB S) :
  (http.Code (snd (App.createUser m r db)) = 400
   <-> snd (json.Decode (http.Body r)) <> None)
  /\ (http.Code (snd (App.createUser m r db)) = 400 -> fst (App.createUser m r db) = db).
Proof.
  unfold App.createUser. destruct (json.Decode (http.Body r)) as [u [e|]]; cbn [snd fst].
  - repeat split; trivial. discriminate.
  - destruct (model_createUser m _ db) as [db' [u' [e|]]]; cbn;
      repeat split; try discriminate; intros H; now elim H.
Qed.

Lemma App_getUsers_codes (r : http.Request) (db : sql.DB S) :
  http.Code (snd (App.getUsers m r db)) = 200
  \/ http.Code (snd (App.getUsers m r db)) = 500.
Proof.
  destruct (App_getUsers_call m r db) as (start & count & ->). cbn [snd].
  destruct (snd (model_getUsers m db start count)) as [users [e|]]; cbn; auto.
Qed.

End AnyModel.

(** X1.  A handler answers 400 exactly when its input cannot be read:
    the id of the path for GET, PUT and DELETE /user/{id}, the body for
    POST /user and PUT /user/{id}; GET /users never answers 400.  A
    request answered 400 has not touched the database. *)
Theorem bad_request_iff_unreadable_input {S : Type} (m : Model S) (r : http.Request)
        (db : sql.DB S) :
  let bad_id := snd (strconv.Atoi (http.Vars_id r)) <> None in
  let bad_body := snd (json.Decode (http.Body r)) <> None in
  (http.Code (snd (App.getUser m r db)) = 400 <-> bad_id)
  /\ (http.Code (snd (App.deleteUser m r db)) = 400 <-> bad_id)
  /\ (http.Code (snd (App.updateUser m r db)) = 400 <-> bad_id \/ bad_body)
  /\ (http.Code (snd (App.createUser m r db)) = 400 <-> bad_body)
  /\ http.Code (snd (App.getUsers m r db)) <> 400
  /\ (forall h, http.Code (snd (handle m h r db)) = 400 -> fst (handle m h r db) = db).
Proof.
  cbv zeta.
  split; [exact (proj1 (App_getUser_400 m r db))|].
  split; [exact (proj1 (App_deleteUser_400 m r db))|].
  split; [exact (proj1 (App_updateUser_400 m r db))|].
  split; [exact (proj1 (App_createUser_400 m r db))|].
  split.
  - destruct (App_getUsers_codes m r db) as [H|H]; rewrite H; discriminate.
  - intros [| | | |]; cbn [handle].
    + destruct (App_getUsers_codes m r db) as [H|H]; rewrite H; discriminate.
    + exact (proj2 (App_createUser_400 m r db)).
    + exact (proj2 (App_getUser_400 m r db)).
    + exact (proj2 (App_updateUser_400 m r db)).
    + exact (proj2 (App_deleteUser_400 m r db)).
Qed.

(** X2.  The status codes of each handler: 200 or 500 for the list;
    201, 400 or 500 for a creation; 200, 400, 404 or 500 for a fetch;
    200, 400 or 500 for an update and for a deletion. *)
Theorem status_codes {S : Type} (m : Model S) (r : http.Request) (db : sql.DB S) :
  In (http.Code (snd (App.getUsers m r db))) [200; 500]
  /\ In (http.Code (snd (App.createUser m r db))) [201; 400; 500]
  /\ In (http.Code (snd (App.getUser m r db))) [200; 400; 404; 500]
  /\ In (http.Code (snd (App.updateUser m r db))) [200; 400; 500]
  /\ In (http.Code (snd (App.deleteUser m r db))) [200; 400; 500].
Proof.
  repeat split.
  - destruct (App_getUsers_codes m r db) as [-> | ->]; cbn; auto.
  - unfold App.createUser. destruct (json.Decode (http.Body r)) as [u [e|]];
      [cbn; auto|]. destruct (model_createUser m u db) as [db' [u' [e|]]]; cbn; auto.
  - unfold App.getUser. destruct (strconv.Atoi (http.Vars_id r)) as [id [e|]];
      [cbn; auto|]. destruct (model_getUser m _ db) as [db' [u' [[|msg]|]]]; cbn; auto.
  - unfold App.updateUser. destruct (strconv.Atoi (http.Vars_id r)) as [id [e|]];
      [cbn; auto|]. destruct (json.Decode (http.Body r)) as [u [e|]]; [cbn; auto|].
    destruct (model_updateUser m _ db) as [db' [e|]]; cbn; auto.
  - unfold App.deleteUser. destruct (strconv.Atoi (http.Vars_id r)) as [id [e|]];
      [cbn; auto|]. destruct (model_deleteUser m _ db) as [db' [e|]]; cbn; auto.
Qed.

Ltac answer_shape :=
  split; [reflexivity|]; intros H;
  first [ eexists; reflexivity | exfalso; vm_compute in H; apply H; reflexivity ].

(** X3.  Every answer is declared as application/json, and every
    answer with a status of 400 or more is an object with the single
    key "error". *)
Theorem error_answers_share_a_shape {S : Type} (m : Model S) (h : Handler)
        (r : http.Request) (db : sql.DB S) :
  let answer := snd (handle m h r db) in
  http.ContentType answer = "application/json"
  /\ (400 <= http.Code answer ->
      exists message, answer = App.respondWithError (http.Code answer) message).
Proof.
  cbv zeta. destruct h; cbn [handle].
  - destruct (App_getUsers_call m r db) as (start & count & ->). cbn [snd].
    destruct (snd (model_getUsers m db start count)) as [users [e|]]; answer_shape.
  - unfold App.createUser. destruct (json.Decode (http.Body r)) as [u [e|]];
      [answer_shape|].
    destruct (model_createUser m u db) as [db' [u' [e|]]]; answer_shape.
  - unfold App.getUser. destruct (strconv.Atoi (http.Vars_id r)) as [id [e|]];
      [answer_shape|].
    destruct (model_getUser m _ db) as [db' [u' [[|msg]|]]]; answer_shape.
  - unfold App.updateUser. destruct (strconv.Atoi (http.Vars_id r)) as [id [e|]];
      [answer_shape|].
    destruct (json.Decode (http.Body r)) as [u [e|]]; [answer_shape|].
    destruct (model_updateUser m _ db) as [db' [e|]]; answer_shape.
  - unfold App.deleteUser. destruct (strconv.Atoi (http.Vars_id r)) as [id [e|]];
      [answer_shape|].
    destruct (model_deleteUser m _ db) as [db' [e|]]; answer_shape.
Qed.

(** ** strconv: what [Atoi] returns *)

(** A text that is no number at all reads as 0. *)
Lemma ParseInt_syntax_zero (text : string) (v : Z) :
  strconv.ParseInt text = (v, Some strconv.ErrSyntax) -> v = 0.
Proof.
  unfold strconv.ParseInt. destruct text as [|c rest]; [now intros [= <-]|].
  destruct (strconv.ParseUint _) as [un [[|]|]]; [now intros [= <-] | |];
    repeat match goal with
           | |- context [if ?b then _ else _] => destruct b
           end; intros [=]; auto.
Qed.

Lemma Atoi_syntax_zero (text : string) (v : Z) :
  strconv.Atoi text = (v, Some strconv.ErrSyntax) -> v = 0.
Proof.
  unfold strconv.Atoi. destruct (_ && _)%bool; [|apply ParseInt_syntax_zero].
  destruct text as [|c rest]; [now intros [= <-]|].
  destruct (_ && _)%bool; [now intros [= <-]|].
  destruct (strconv.Atoi_digits _ 0); [discriminate | now intros [= <-]].
Qed.

(** X4.  A count or a start that is absent or is no number has the
    effect of the default: GET /users answers as it does for count=10,
    respectively for start=0. *)
Theorem unreadable_parameters_default {S : Type} (m : Model S) (r : http.Request)
        (db : sql.DB S) :
  (snd (strconv.Atoi (http.FormValue_count r)) = Some strconv.ErrSyntax ->
   App.getUsers m r db
   = App.getUsers m {| http.Vars_id := http.Vars_id r;
                       http.FormValue_count := "10";
                       http.FormValue_start := http.FormValue_start r;
                       http.Body := http.Body r |} db)
  /\ (snd (strconv.Atoi (http.FormValue_start r)) = Some strconv.ErrSyntax ->
      App.getUsers m r db
      = App.getUsers m {| http.Vars_id := http.Vars_id r;
                          http.FormValue_count := http.FormValue_count r;
                          http.FormValue_start := "0";
                          http.Body := http.Body r |} db).
Proof.
  split; intros H; unfold App.getUsers; cbn [http.FormValue_count http.FormValue_start].
  - destruct (strconv.Atoi (http.FormValue_count r)) as [count e] eqn:E. cbn in H. subst e.
    apply Atoi_syntax_zero in E. subst count.
    change (strconv.Atoi "10") with (10, @None strconv.NumError). reflexivity.
  - destruct (strconv.Atoi (http.FormValue_start r)) as [start e] eqn:E. cbn in H. subst e.
    apply Atoi_syntax_zero in E. subst start.
    change (strconv.Atoi "0") with (0, @None strconv.NumError). reflexivity.
Qed.

(** GET /users with no parameter at all is GET /users?start=0&count=10. *)
Lemma unreadable_parameters_default_witness :
  App.getUsers on_mysql (request "" "" "" no_body) fresh
  = App.getUsers on_mysql (request "" "10" "0" no_body) fresh.
Proof.
  destruct (unreadable_parameters_default on_mysql (request "" "" "" no_body) fresh)
    as [Hcount _].
  rewrite (Hcount eq_refl).
  destruct (unreadable_parameters_default on_mysql (request "" "10" "" no_body) fresh)
    as [_ Hstart].
  exact (Hstart eq_refl).
Defined.

(** ** model.go: how many statements an operation sends *)

(** X5.  Every operation sends exactly one statement, except
    [createUser] in the [fmt.Sprintf] variant: it sends the INSERT, and
    only when that was carried out a second statement, SELECT
    LAST_INSERT_ID().  When either statement fails it returns that
    error with the record untouched; the second can fail after the
    INSERT has been carried out. *)
Theorem statements_per_operation {S : Type} (drv : sql.Driver S) (db : sql.DB S)
        (u : user) (start count : Z) :
  (forall v, exists c,
        sql.sent (fst (model_getUser (model_of v drv) u db)) = sql.sent db ++ [c])
  /\ (forall v, exists c,
           sql.sent (fst (model_updateUser (model_of v drv) u db)) = sql.sent db ++ [c])
  /\ (forall v, exists c,
           sql.sent (fst (model_deleteUser (model_of v drv) u db)) = sql.sent db ++ [c])
  /\ (forall v, exists c,
           sql.sent (fst (model_getUsers (model_of v drv) db start count))
           = sql.sent db ++ [c])
  /\ (exists c, sql.sent (fst (ParamVariant.createUser drv u db)) = sql.sent db ++ [c])
  /\ ((exists c msg,
          sql.sent (fst (SprintfVariant.createUser drv u db)) = sql.sent db ++ [c]
          /\ sql.outcome c = sql.Failed msg
          /\ snd (SprintfVariant.createUser drv u db) = (u, Some (Err msg)))
      \/ (exists c1 c2,
             sql.sent (fst (SprintfVariant.createUser drv u db)) = sql.sent db ++ [c1; c2]
             /\ succeeded c1 = true
             /\ sql.statement c2 = "SELECT LAST_INSERT_ID()"
             /\ sql.bound c2 = []
             /\ forall msg,
                 sql.outcome c2 = sql.Failed msg ->
                 snd (SprintfVariant.createUser drv u db) = (u, Some (Err msg)))).
Proof.
  split; [|split; [|split; [|split; [|split]]]].
  - intros v. destruct (getUser_ErrNoRows drv v u db) as (c & H & _). now exists c.
  - intros v. destruct (updateUser_call drv v u db) as (c & H & _). now exists c.
  - intros v. destruct (deleteUser_call drv v u db) as (c & H & _). now exists c.
  - intros v. destruct (getUsers_call drv v db start count) as (c & H & _). now exists c.
  - unfold_model. ask_driver; cbn [fst snd];
      destruct (sql.Row_Scan _ _ u) as [u' [e|]]; eexists; reflexivity.
  - unfold_model. ask_driver; cbn [fst snd].
    + left. eexists _, _. repeat split.
    + right. ask_driver; cbn [fst snd sql.sent]; rewrite <- app_assoc;
        destruct (sql.Row_Scan _ _ u) as [u' [e|]] eqn:E;
        eexists _, _; (split; [reflexivity|]);
        cbn [sql.sent fst snd sql.outcome sql.statement sql.bound];
        repeat split; intros msg [= <-]; cbn in E; now injection E as <- <-.
Qed.

(** ** model.go: what [getUsers] returns *)

(** The loop succeeds exactly when every row scans, and then returns
    the scanned rows in the order they were delivered. *)
Lemma getUsers_loop_map (rows : list (list sql.Value)) :
  forall l,
    (Forall (fun row => snd (scanned row) = None) rows
     <-> snd (getUsers_loop rows (make l)) = None)
    /\ (snd (getUsers_loop rows (make l)) = None ->
        fst (getUsers_loop rows (make l))
        = make (l ++ map (fun row => fst (scanned row)) rows)).
Proof.
  induction rows as [|row rest IH]; intros l; cbn [getUsers_loop map].
  - rewrite app_nil_r. repeat split. constructor.
  - fold id_name_age. fold (scanned row).
    destruct (scanned row) as [u [e|]] eqn:E; cbn [snd fst append].
    + split; [split|]; try discriminate. intros H. inversion H as [|? ? Hrow]; subst.
      rewrite E in Hrow. discriminate Hrow.
    + destruct (IH (l ++ [u])) as [Hiff Hmap]. split; [split|].
      * intros H. inversion H; subst. now apply Hiff.
      * intros H. constructor; [now rewrite E | now apply Hiff].
      * intros H. rewrite (Hmap H), <- app_assoc. reflexivity.
Qed.

(** X6.  [getUsers] succeeds exactly when every delivered row scans,
    and then returns one user per row, in the order of delivery. *)
Theorem getUsers_keeps_order {S : Type} (drv : sql.Driver S) (v : Variant)
        (db : sql.DB S) (start count : Z) :
  let listed := snd (model_getUsers (model_of v drv) db start count) in
  exists c,
    sql.sent (fst (model_getUsers (model_of v drv) db start count)) = sql.sent db ++ [c]
    /\ forall rs,
        sql.outcome c = sql.Returned rs ->
        (Forall (fun row => snd (scanned row) = None) (sql.delivered rs)
         <-> snd listed = None)
        /\ (snd listed = None ->
            fst listed = make (map (fun row => fst (scanned row)) (sql.delivered rs))).
Proof.
  cbv zeta. destruct (getUsers_call drv v db start count) as (c & Hsent & -> & _).
  exists c. split; [exact Hsent|]. intros rs ->.
  exact (getUsers_loop_map (sql.delivered rs) []).
Qed.

(** X7.  A stream of rows that breaks off is not noticed by
    [getUsers]: the rows delivered before the failure are returned with
    a nil error, and GET /users answers 200 with them.  [getUser]
    reports the same failure when it arrives before the first row. *)
Theorem stream_failure_goes_unnoticed {S : Type} (drv : sql.Driver S) (v : Variant)
        (db : sql.DB S) :
  (forall r, exists c,
        sql.sent (fst (App.getUsers (model_of v drv) r db)) = sql.sent db ++ [c]
        /\ forall rows msg,
            sql.outcome c
            = sql.Returned {| sql.delivered := rows; sql.failure := Some msg |} ->
            Forall (fun row => snd (scanned row) = None) rows ->
            snd (App.getUsers (model_of v drv) r db)
            = App.respondWithJSON
                http.StatusOK
                (json.of_users (make (map (fun row => fst (scanned row)) rows))))
  /\ (forall u, exists c,
           sql.sent (fst (model_getUser (model_of v drv) u db)) = sql.sent db ++ [c]
           /\ forall msg,
               sql.outcome c
               = sql.Returned {| sql.delivered := []; sql.failure := Some msg |} ->
               snd (model_getUser (model_of v drv) u db) = (u, Some (Err msg))).
Proof.
  split.
  - intros r. destruct (App_getUsers_call (model_of v drv) r db) as (start & count & ->).
    destruct (getUsers_call drv v db start count) as (c & Hsent & Hres & _).
    exists c. split; [exact Hsent|]. intros rows msg Hc Hrows. cbn [snd].
    rewrite Hres, Hc. cbn [sql.delivered].
    destruct (getUsers_loop_map rows []) as [Hiff Hmap].
    destruct (getUsers_loop rows (make [])) as [users err]. cbn [fst snd] in *.
    apply Hiff in Hrows. subst err. now rewrite (Hmap eq_refl).
  - intros u. destruct v; unfold_model; ask_driver; eexists;
      (split; [reflexivity|]); intros msg' [= ]; subst; reflexivity.
Qed.

(** ** model.go: what a failed [getUser] leaves behind *)




(** ** model.go: the stubs *)

(** X9.  With the stubs no request reaches the database: the handle is
    left as it was, and a request whose input can be read is answered
    500 with the text Not implemented. *)
Theorem stubs_touch_nothing {S : Type} (h : Handler) (r : http.Request) (db : sql.DB S) :
  let served := handle stub_model h r db in
  fst served = db
  /\ (http.Code (snd served) = 400
      \/ snd served
         = {| http.ContentType := "application/json";
              http.Code := 500;
              http.Written := js "{`error`:`Not implemented`}" |}).
Proof.
  cbv zeta. destruct h; cbn [handle].
  - unfold App.getUsers.
    destruct (strconv.Atoi (http.FormValue_count r)) as [count ?].
    destruct (strconv.Atoi (http.FormValue_start r)) as [start ?].
    split; [reflexivity | right; reflexivity].
  - unfold App.createUser. destruct (json.Decode (http.Body r)) as [u [e|]];
      (split; [reflexivity|]); [left | right]; reflexivity.
  - unfold App.getUser. destruct (strconv.Atoi (http.Vars_id r)) as [id [e|]];
      (split; [reflexivity|]); [left | right]; reflexivity.
  - unfold App.updateUser. destruct (strconv.Atoi (http.Vars_id r)) as [id [e|]];
      [split; [reflexivity | left; reflexivity]|].
    destruct (json.Decode (http.Body r)) as [u [e|]];
      (split; [reflexivity|]); [left | right]; reflexivity.
  - unfold App.deleteUser. destruct (strconv.Atoi (http.Vars_id r)) as [id [e|]];
      (split; [reflexivity|]); [left | right]; reflexivity.
Qed.

(** ** app.go: which requests reach which handler *)

Lemma digits_prefix_all (text : string) :
  all_digits text = true -> mux.digits_prefix text = (text, EmptyString).
Proof.
  induction text as [|c rest IH]; cbn; [reflexivity|].
  destruct (strconv.is_digit c); [|discriminate]. cbn. intros H. now rewrite IH.
Qed.

Lemma digits_prefix_end (text ds : string) :
  mux.digits_prefix text = (ds, EmptyString) -> ds = text /\ all_digits text = true.
Proof.
  revert ds. induction text as [|c rest IH]; intros ds; cbn.
  - now intros [= <-].
  - destruct (strconv.is_digit c); [|discriminate].
    destruct (mux.digits_prefix rest) as [ds' tl]. intros [= <- ->].
    destruct (IH ds' eq_refl) as [-> ->]. now split.
Qed.

Lemma match_literals (lit : string) (parts : list mux.Part) (path : string)
      (vars : list (string * string)) :
  mux.match_parts (literals lit ++ parts) path = Some vars
  <-> exists rest, path = (lit ++ rest)%string /\ mux.match_parts parts rest = Some vars.
Proof.
  revert path. induction lit as [|c lit IH]; intros path; cbn [literals app String.append].
  - split; [intros H; now exists path | now intros (rest & -> & H)].
  - cbn [mux.match_parts]. destruct path as [|c' path].
    + split; [discriminate | intros (rest & [=] & _)].
    + destruct (Ascii.eqb_spec c c') as [<-|Hne].
      * rewrite IH. split; intros (rest & H & Hm); exists rest; split; trivial;
          [now rewrite H | now injection H].
      * split; [discriminate | intros (rest & [= ? ?] & _); now elim Hne].
Qed.

Lemma match_end (path : string) (vars : list (string * string)) :
  mux.match_parts [] path = Some vars <-> path = EmptyString /\ vars = [].
Proof.
  destruct path; cbn; split; try discriminate; try (now intros [[=] _]).
  - now intros [= <-].
  - now intros [_ ->].
Qed.

Lemma match_digits (name path : string) (vars : list (string * string)) :
  mux.match_parts [mux.Digits name] path = Some vars
  <-> is_id path = true /\ vars = [(name, path)].
Proof.
  cbn [mux.match_parts]. unfold is_id. split.
  - destruct (mux.digits_prefix path) as [ds rest] eqn:E.
    destruct ds as [|d ds]; [discriminate|].
    destruct rest as [|c rest]; [|discriminate]. cbn. intros [= <-].
    destruct (digits_prefix_end _ _ E) as [<- ->]. now split.
  - intros [Hid ->]. apply andb_prop in Hid as [Hne Hall].
    rewrite (digits_prefix_all _ Hall). destruct path; [discriminate | reflexivity].
Qed.

(** A route whose template reads as [parts] matches the requests of
    its method whose path matches [parts]. *)
Lemma route_matches_spec (rt : Route) (parts : list mux.Part) (method path : string)
      (vars : list (string * string)) :
  mux.read_template mux.Plain (route_path rt) = Some parts ->
  (route_matches rt method path = Some vars
   <-> method = route_method rt /\ mux.match_parts parts path = Some vars).
Proof.
  intros Hparts. unfold route_matches. rewrite Hparts.
  destruct (String.eqb_spec (route_method rt) method) as [<-|Hne].
  - split; [now split | now intros [_ H]].
  - split; [discriminate | intros [-> _]; now elim Hne].
Qed.

Lemma plain_route (rt : Route) (method path : string) (vars : list (string * string)) :
  mux.read_template mux.Plain (route_path rt) = Some (literals (route_path rt)) ->
  (route_matches rt method path = Some vars
   <-> method = route_method rt /\ path = route_path rt /\ vars = []).
Proof.
  intros Hparts. rewrite (route_matches_spec rt _ method path vars Hparts).
  rewrite <- (app_nil_r (literals (route_path rt))), match_literals.
  split.
  - intros (Hm & rest & -> & Hend). apply match_end in Hend as [-> ->].
    rewrite append_empty. now repeat split.
  - intros (Hm & -> & ->). split; [exact Hm|]. exists EmptyString.
    rewrite append_empty. split; [reflexivity | now apply match_end].
Qed.

Lemma id_route (rt : Route) (method path : string) (vars : list (string * string)) :
  mux.read_template mux.Plain (route_path rt)
  = Some (literals "/user/" ++ [mux.Digits "id"]) ->
  (route_matches rt method path = Some vars
   <-> method = route_method rt
       /\ exists id, is_id id = true /\ path = ("/user/" ++ id)%string
                     /\ vars = [("id", id)]).
Proof.
  intros Hparts. rewrite (route_matches_spec rt _ method path vars Hparts), match_literals.
  split.
  - intros (Hm & rest & -> & Hd). apply match_digits in Hd as [Hid ->].
    split; [exact Hm|]. now exists rest.
  - intros (Hm & id & Hid & -> & ->). split; [exact Hm|]. exists id.
    split; [reflexivity | now apply match_digits].
Qed.

(** The router, route by route. *)
Lemma Match_spec (method path : string) (h : Handler) (vars : list (string * string)) :
  Match initializeRoutes method path = Some (h, vars)
  <-> (method = "GET" /\ path = "/users" /\ h = a_getUsers /\ vars = [])
      \/ (method = "POST" /\ path = "/user" /\ h = a_createUser /\ vars = [])
      \/ (exists id,
             is_id id = true /\ path = ("/user/" ++ id)%string /\ vars = [("id", id)]
             /\ ((method = "GET" /\ h = a_getUser)
                 \/ (method = "PUT" /\ h = a_updateUser)
                 \/ (method = "DELETE" /\ h = a_deleteUser))).
Proof.
  unfold initializeRoutes. cbn [Match route_handler].
  set (r1 := {| route_path := "/users" |}). set (r2 := {| route_path := "/user" |}).
  set (r3 := {| route_handler := a_getUser |}).
  set (r4 := {| route_handler := a_updateUser |}).
  set (r5 := {| route_handler := a_deleteUser |}).
  assert (H1 : forall method path vars,
             route_matches r1 method path = Some vars
             <-> method = "GET" /\ path = "/users" /\ vars = [])
    by (intros; now apply plain_route).
  assert (H2 : forall method path vars,
             route_matches r2 method path = Some vars
             <-> method = "POST" /\ path = "/user" /\ vars = [])
    by (intros; now apply plain_route).
  assert (H3 : forall method path vars,
             route_matches r3 method path = Some vars
             <-> method = "GET"
                 /\ exists id, is_id id = true /\ path = ("/user/" ++ id)%string
                               /\ vars = [("id", id)])
    by (intros; now apply id_route).
  assert (H4 : forall method path vars,
             route_matches r4 method path = Some vars
             <-> method = "PUT"
                 /\ exists id, is_id id = true /\ path = ("/user/" ++ id)%string
                               /\ vars = [("id", id)])
    by (intros; now apply id_route).
  assert (H5 : forall method path vars,
             route_matches r5 method path = Some vars
             <-> method = "DELETE"
                 /\ exists id, is_id id = true /\ path = ("/user/" ++ id)%string
                               /\ vars = [("id", id)])
    by (intros; now apply id_route).
  clearbody r1 r2 r3 r4 r5.
  destruct (route_matches r1 method path) as [v1|] eqn:E1.
  { apply H1 in E1 as (-> & -> & ->). split.
    - intros [= <- <-]. left. now repeat split.
    - intros [(_ & _ & -> & ->) | [(Hm & _) | (id & _ & Hp & _)]];
        [reflexivity | discriminate Hm | cbn in Hp; discriminate Hp]. }
  destruct (route_matches r2 method path) as [v2|] eqn:E2.
  { apply H2 in E2 as (-> & -> & ->). split.
    - intros [= <- <-]. right. left. now repeat split.
    - intros [(Hm & _) | [(_ & _ & -> & ->) | (id & _ & Hp & _)]];
        [discriminate Hm | reflexivity | cbn in Hp; discriminate Hp]. }
  destruct (route_matches r3 method path) as [v3|] eqn:E3.
  { apply H3 in E3 as (-> & id & Hid & -> & ->). split.
    - intros [= <- <-]. right. right. exists id. repeat split; auto.
    - intros [(_ & Hp & _) | [(Hm & _) | (id' & _ & Hp & -> & [(_ & ->) | [(Hm & _) | (Hm & _)]])]];
        [cbn in Hp; discriminate Hp | discriminate Hm | | discriminate Hm | discriminate Hm].
      apply append_inj in Hp. now subst id'. }
  destruct (route_matches r4 method path) as [v4|] eqn:E4.
  { apply H4 in E4 as (-> & id & Hid & -> & ->). split.
    - intros [= <- <-]. right. right. exists id. repeat split; auto.
    - intros [(Hm & _) | [(Hm & _) | (id' & _ & Hp & -> & [(Hm & _) | [(_ & ->) | (Hm & _)]])]];
        [discriminate Hm | discriminate Hm | discriminate Hm | | discriminate Hm].
      apply append_inj in Hp. now subst id'. }
  destruct (route_matches r5 method path) as [v5|] eqn:E5.
  { apply H5 in E5 as (-> & id & Hid & -> & ->). split.
    - intros [= <- <-]. right. right. exists id. repeat split; auto.
    - intros [(Hm & _) | [(Hm & _) | (id' & _ & Hp & -> & [(Hm & _) | [(Hm & _) | (_ & ->)]])]];
        [discriminate Hm | discriminate Hm | discriminate Hm | discriminate Hm | ].
      apply append_inj in Hp. now subst id'. }
  split; [discriminate|].
  intros [(-> & -> & _) | [(-> & -> & _) | (id & Hid & -> & _ & [(-> & _) | [(-> & _) | (-> & _)]])]].
  - assert (E : route_matches r1 "GET" "/users" = Some []) by now apply H1.
    rewrite E in E1. discriminate.
  - assert (E : route_matches r2 "POST" "/user" = Some []) by now apply H2.
    rewrite E in E2. discriminate.
  - assert (E : route_matches r3 "GET" ("/user/" ++ id) = Some [("id", id)])
      by (apply H3; split; [reflexivity | now exists id]).
    rewrite E in E3. discriminate.
  - assert (E : route_matches r4 "PUT" ("/user/" ++ id) = Some [("id", id)])
      by (apply H4; split; [reflexivity | now exists id]).
    rewrite E in E4. discriminate.
  - assert (E : route_matches r5 "DELETE" ("/user/" ++ id) = Some [("id", id)])
      by (apply H5; split; [reflexivity | now exists id]).
    rewrite E in E5. discriminate.
Qed.

(** X10.  The router runs a handler in five cases and no other: GET
    /users, POST /user, and GET, PUT and DELETE on /user/ followed by
    one or more decimal digits, which the handler receives as the id.
    A path /user/x where x is empty or has a byte that is no digit
    reaches no handler. *)
Theorem routed_requests {S : Type} (m : Model S) (req : Arriving) (db : sql.DB S)
        (out : sql.DB S * http.Response) :
  let request_with id :=
    {| http.Vars_id := id;
       http.FormValue_count := Form_count req;
       http.FormValue_start := Form_start req;
       http.Body := Sent req |} in
  ServeHTTP m req db = Some out
  <-> (Method req = "GET" /\ URL_Path req = "/users"
       /\ out = App.getUsers m (request_with EmptyString) db)
      \/ (Method req = "POST" /\ URL_Path req = "/user"
          /\ out = App.createUser m (request_with EmptyString) db)
      \/ (exists id,
             is_id id = true /\ URL_Path req = ("/user/" ++ id)%string
             /\ ((Method req = "GET" /\ out = App.getUser m (request_with id) db)
                 \/ (Method req = "PUT" /\ out = App.updateUser m (request_with id) db)
                 \/ (Method req = "DELETE"
                     /\ out = App.deleteUser m (request_with id) db))).
Proof.
  cbv zeta. unfold ServeHTTP. split.
  - destruct (Match initializeRoutes (Method req) (URL_Path req)) as [[h vars]|] eqn:E;
      [|discriminate].
    apply Match_spec in E. intros [= <-].
    destruct E as [(Hm & Hp & -> & ->) | [(Hm & Hp & -> & ->) | (id & Hid & Hp & -> & Hh)]].
    + left. now repeat split.
    + right. left. now repeat split.
    + right. right. exists id. split; [exact Hid|]. split; [exact Hp|].
      destruct Hh as [(Hm & ->) | [(Hm & ->) | (Hm & ->)]]; cbn [handle mux.Vars String.eqb];
        rewrite ?Ascii.eqb_refl; auto.
  - intros [(Hm & Hp & ->) | [(Hm & Hp & ->) | (id & Hid & Hp & Hh)]].
    + assert (E : Match initializeRoutes (Method req) (URL_Path req) = Some (a_getUsers, []))
        by (apply Match_spec; left; now repeat split).
      now rewrite E.
    + assert (E : Match initializeRoutes (Method req) (URL_Path req) = Some (a_createUser, []))
        by (apply Match_spec; right; left; now repeat split).
      now rewrite E.
    + destruct Hh as [(Hm & ->) | [(Hm & ->) | (Hm & ->)]].
      * assert (E : Match initializeRoutes (Method req) (URL_Path req)
                    = Some (a_getUser, [("id", id)]))
          by (apply Match_spec; right; right; exists id; repeat split; auto).
        now rewrite E.
      * assert (E : Match initializeRoutes (Method req) (URL_Path req)
                    = Some (a_updateUser, [("id", id)]))
          by (apply Match_spec; right; right; exists id; repeat split; auto).
        now rewrite E.
      * assert (E : Match initializeRoutes (Method req) (URL_Path req)
                    = Some (a_deleteUser, [("id", id)]))
          by (apply Match_spec; right; right; exists id; repeat split; auto).
        now rewrite E.
Qed.

(** ** strconv: [Atoi] on the digits of a path *)

Lemma digit_val_range (c : ascii) :
  strconv.is_digit c = true -> 0 <= strconv.digit_val c <= 9.
Proof.
  unfold strconv.is_digit, strconv.digit_val. intros H.
  apply andb_prop in H as [H1 H2]. lia.
Qed.

Lemma decimal_from_lower (text : string) :
  all_digits text = true -> forall n, 0 <= n -> n <= decimal_from n text.
Proof.
  induction text as [|c rest IH]; cbn [all_digits decimal_from]; intros H n Hn; [lia|].
  apply andb_prop in H as [Hc Hrest]. pose proof (digit_val_range c Hc).
  specialize (IH Hrest (n * 10 + strconv.digit_val c)). lia.
Qed.

Lemma decimal_from_upper (text : string) :
  all_digits text = true ->
  forall n, 0 <= n ->
            decimal_from n text < (n + 1) * 10 ^ Z.of_nat (String.length text).
Proof.
  induction text as [|c rest IH]; cbn [all_digits decimal_from String.length];
    intros H n Hn; [cbn; lia|].
  apply andb_prop in H as [Hc Hrest]. pose proof (digit_val_range c Hc).
  specialize (IH Hrest (n * 10 + strconv.digit_val c)).
  rewrite Nat2Z.inj_succ, Z.pow_succ_r by lia.
  assert (0 < 10 ^ Z.of_nat (String.length rest)) by (apply Z.pow_pos_nonneg; lia).
  nia.
Qed.

Lemma Atoi_digits_decimal (text : string) :
  all_digits text = true ->
  forall n, strconv.Atoi_digits text n = Some (decimal_from n text).
Proof.
  induction text as [|c rest IH]; cbn [all_digits decimal_from strconv.Atoi_digits];
    intros H n; [reflexivity|].
  apply andb_prop in H as [-> Hrest]. now apply IH.
Qed.

Lemma ParseUint_loop_decimal (text : string) :
  all_digits text = true ->
  forall n, 0 <= n <= strconv.maxUint64 ->
            strconv.ParseUint_loop text n
            = if decimal_from n text <=? strconv.maxUint64
              then (decimal_from n text, None)
              else (strconv.maxUint64, Some strconv.ErrRange).
Proof.
  change strconv.maxUint64 with 18446744073709551615.
  induction text as [|c rest IH]; cbn [all_digits decimal_from strconv.ParseUint_loop];
    intros H n Hn.
  - destruct (Z.leb_spec n 18446744073709551615); [reflexivity | lia].
  - change strconv.maxUint64 with 18446744073709551615.
    change (18446744073709551615 / 10 + 1) with 1844674407370955162.
    apply andb_prop in H as [Hc Hrest]. rewrite Hc. cbn [negb].
    pose proof (digit_val_range c Hc) as Hd.
    pose proof (decimal_from_lower rest Hrest (n * 10 + strconv.digit_val c)) as Hlow.
    destruct (Z.leb_spec 1844674407370955162 n).
    + destruct (Z.leb_spec (decimal_from (n * 10 + strconv.digit_val c) rest)
                           18446744073709551615); [lia | reflexivity].
    + destruct (Z.ltb_spec 18446744073709551615 (n * 10 + strconv.digit_val c)).
      * destruct (Z.leb_spec (decimal_from (n * 10 + strconv.digit_val c) rest)
                             18446744073709551615); [lia | reflexivity].
      * apply IH; [exact Hrest | lia].
Qed.

Lemma digit_is_no_sign (c : ascii) :
  strconv.is_digit c = true -> Ascii.eqb c "-" = false /\ Ascii.eqb c "+" = false.
Proof.
  intros H. split.
  - destruct (Ascii.eqb_spec c "-") as [->|]; [discriminate H | reflexivity].
  - destruct (Ascii.eqb_spec c "+") as [->|]; [discriminate H | reflexivity].
Qed.

(** On one or more decimal digits [Atoi] returns their number, unless
    it is above the largest [int]: then it returns that largest [int]
    and a range error. *)
Lemma Atoi_of_id (text : string) :
  is_id text = true ->
  strconv.Atoi text
  = if decimal text <=? maxInt then (decimal text, None)
    else (maxInt, Some strconv.ErrRange).
Proof.
  unfold is_id, decimal. change maxInt with 9223372036854775807.
  intros H. apply andb_prop in H as [Hne Hall].
  destruct text as [|c rest]; [discriminate Hne|]. clear Hne.
  pose proof (decimal_from_lower _ Hall 0 ltac:(lia)) as Hlow.
  pose proof Hall as Hc. cbn [all_digits] in Hc. apply andb_prop in Hc as [Hc _].
  destruct (digit_is_no_sign c Hc) as [Hminus Hplus].
  unfold strconv.Atoi.
  destruct (_ && _)%bool eqn:Eshort.
  - rewrite Hminus, Hplus. cbn [orb andb].
    rewrite (Atoi_digits_decimal _ Hall 0).
    pose proof (decimal_from_upper _ Hall 0 ltac:(lia)) as Hup.
    apply andb_prop in Eshort as [_ Hlen]. apply Z.ltb_lt in Hlen.
    assert (10 ^ Z.of_nat (String.length (String c rest)) <= 10 ^ 18)
      by (apply Z.pow_le_mono_r; lia).
    change (10 ^ 18) with 1000000000000000000 in *.
    destruct (Z.leb_spec (decimal_from 0 (String c rest)) 9223372036854775807);
      [reflexivity | lia].
  - unfold strconv.ParseInt. rewrite Hminus, Hplus. cbn [orb andb negb].
    unfold strconv.ParseUint. rewrite (ParseUint_loop_decimal _ Hall 0)
      by (change strconv.maxUint64 with 18446744073709551615; lia).
    change strconv.maxUint64 with 18446744073709551615.
    change (2 ^ 63) with 9223372036854775808.
    destruct (Z.leb_spec (decimal_from 0 (String c rest)) 18446744073709551615).
    + destruct (Z.leb_spec 9223372036854775808 (decimal_from 0 (String c rest)));
        destruct (Z.leb_spec (decimal_from 0 (String c rest)) 9223372036854775807);
        try lia; reflexivity.
    + destruct (Z.leb_spec (decimal_from 0 (String c rest)) 9223372036854775807);
        [lia | reflexivity].
Qed.

(** X11.  A request for /user/{id} that the router lets through is
    turned away for its id only when the digits stand for a number
    above the largest [int], 9223372036854775807; a PUT also when its
    body cannot be read.  It is then answered 400 without a statement
    being sent. *)
Theorem routed_id_rejected_iff_overflow {S : Type} (m : Model S) (req : Arriving)
        (db : sql.DB S) (id : string) :
  is_id id = true ->
  URL_Path req = ("/user/" ++ id)%string ->
  In (Method req) ["GET"; "PUT"; "DELETE"] ->
  exists out,
    ServeHTTP m req db = Some out
    /\ (http.Code (snd out) = 400
        <-> maxInt < decimal id
            \/ (Method req = "PUT" /\ snd (json.Decode (Sent req)) <> None))
    /\ (http.Code (snd out) = 400 -> fst out = db).
Proof.
  intros Hid Hpath Hmethod.
  assert (Hbad : snd (strconv.Atoi id) <> None <-> maxInt < decimal id).
  { rewrite (Atoi_of_id id Hid).
    destruct (Z.leb_spec (decimal id) maxInt) as [Hle|Hgt]; cbn [snd].
    - split; [intros Hnone; now elim Hnone | lia].
    - split; [lia | discriminate]. }
  unfold ServeHTTP.
  destruct Hmethod as [Hm | [Hm | [Hm | []]]]; symmetry in Hm.
  - assert (E : Match initializeRoutes (Method req) (URL_Path req)
                = Some (a_getUser, [("id", id)]))
      by (apply Match_spec; right; right; exists id; repeat split; auto).
    rewrite E. cbn [handle mux.Vars String.eqb]. rewrite !Ascii.eqb_refl.
    eexists. split; [reflexivity|]. split; [|apply App_getUser_400].
    rewrite (proj1 (App_getUser_400 m _ db)). cbn [http.Vars_id]. rewrite Hbad.
    split; [auto | intros [H | [H _]]; [exact H | rewrite Hm in H; discriminate H]].
  - assert (E : Match initializeRoutes (Method req) (URL_Path req)
                = Some (a_updateUser, [("id", id)]))
      by (apply Match_spec; right; right; exists id; repeat split; auto).
    rewrite E. cbn [handle mux.Vars String.eqb]. rewrite !Ascii.eqb_refl.
    eexists. split; [reflexivity|]. split; [|apply App_updateUser_400].
    rewrite (proj1 (App_updateUser_400 m _ db)). cbn [http.Vars_id http.Body].
    rewrite Hbad. split; intros [H | H]; auto. now right.
  - assert (E : Match initializeRoutes (Method req) (URL_Path req)
                = Some (a_deleteUser, [("id", id)]))
      by (apply Match_spec; right; right; exists id; repeat split; auto).
    rewrite E. cbn [handle mux.Vars String.eqb]. rewrite !Ascii.eqb_refl.
    eexists. split; [reflexivity|]. split; [|apply App_deleteUser_400].
    rewrite (proj1 (App_deleteUser_400 m _ db)). cbn [http.Vars_id]. rewrite Hbad.
    split; [auto | intros [H | [H _]]; [exact H | rewrite Hm in H; discriminate H]].
Qed.

(** GET /user/9223372036854775808, one above the largest [int], is
    answered 400; GET /user/9223372036854775807 is not. *)
Lemma routed_id_rejected_iff_overflow_witness :
  let get id := {| Method := "GET"; URL_Path := ("/user/" ++ id)%string;
                   Form_count := EmptyString; Form_start := EmptyString;
                   Sent := no_body |} in
  option_map (fun out => http.Code (snd out))
             (ServeHTTP on_mysql (get "9223372036854775808") fresh) = Some 400
  /\ option_map (fun out => http.Code (snd out))
                (ServeHTTP on_mysql (get "9223372036854775807") fresh) = Some 404.
Proof.
  intros get. split; [|reflexivity].
  destruct (routed_id_rejected_iff_overflow on_mysql (get "9223372036854775808") fresh
              "9223372036854775808" eq_refl eq_refl (or_introl eq_refl))
    as (out & -> & Hcode & _).
  cbn [option_map]. f_equal. apply Hcode. left. reflexivity.
Defined.

(** ** main_test.go: the fixture *)

Lemma wrap_small (z : Z) : minInt <= z <= maxInt -> wrap z = z.
Proof.
  unfold wrap, minInt, maxInt. intros H.
  rewrite Z.mod_small; [lia|]. change (2 ^ 64) with (2 * 2 ^ 63). lia.
Qed.

Section Fixture.
Context {S : Type} (drv : sql.Driver S).

Lemma addUsers_loop_sent (n : nat) :
  forall i db,
    0 <= i -> i + Z.of_nat n <= maxInt ->
    texts (main_test.addUsers_loop drv n i db)
    = texts db ++ map addUsers_statement (count_from i n)
    /\ parameters (main_test.addUsers_loop drv n i db)
       = parameters db ++ map (fun _ => []) (count_from i n).
Proof.
  induction n as [|n IH]; intros i db Hi Hn; cbn [main_test.addUsers_loop count_from map].
  - now rewrite !app_nil_r.
  - rewrite (wrap_small (i + 1)) by (unfold minInt, maxInt in *; lia).
    unfold addUsers_statement. set (statement := fmt.Sprintf _ _).
    destruct (sql.Exec drv db statement []) as [db' res] eqn:E.
    assert (Hdb' : texts db' = texts db ++ [statement]
                   /\ parameters db' = parameters db ++ [[]]).
    { revert E. unfold sql.Exec, sql.record, texts, parameters.
      destruct (sql.driver_Exec drv _ _ _) as [s' [msg|r]]; intros [= <- _];
        cbn [sql.sent]; rewrite !map_app; split; reflexivity. }
    destruct Hdb' as [Ht Hp].
    destruct (IH (i + 1) db') as [-> ->]; [lia | lia |].
    rewrite Ht, Hp, <- !app_assoc. split; reflexivity.
Qed.

End Fixture.

(** X12.  [addUsers(count)] sends one INSERT for each number from 1 to
    [count] (one INSERT when [count] is below 1), in that order, for
    the user named User k of age 10 k (as 64-bit arithmetic has it),
    with no bind parameter; it goes on whether or not an INSERT
    fails. *)
Theorem addUsers_statements {S : Type} (drv : sql.Driver S) (count : Z) (db : sql.DB S) :
  count <= maxInt ->
  let n := Z.to_nat (Z.max 1 count) in
  texts (main_test.addUsers drv count db)
  = texts db ++ map addUsers_statement (count_from 0 n)
  /\ parameters (main_test.addUsers drv count db)
     = parameters db ++ map (fun _ => []) (count_from 0 n)
  /\ List.length (sql.sent (main_test.addUsers drv count db))
     = (List.length (sql.sent db) + n)%nat.
Proof.
  intros Hcount n. unfold main_test.addUsers.
  replace (if count <? 1 then 1 else count) with (Z.max 1 count)
    by (destruct (Z.ltb_spec count 1); lia).
  fold n.
  destruct (addUsers_loop_sent drv n 0 db) as [Ht Hp];
    [lia | subst n; unfold maxInt in *; lia |].
  split; [exact Ht|]. split; [exact Hp|].
  apply (f_equal (@List.length _)) in Ht. unfold texts in Ht.
  rewrite length_app, !length_map in Ht. rewrite Ht.
  f_equal. clear. generalize 0. induction n as [|n IH]; intros i; cbn; auto.
Qed.

(** [addUsers(3)] on a server that refuses every statement. *)
Lemma addUsers_statements_witness :
  texts (main_test.addUsers (canned (inl "refused") (inl "refused")) 3 idle)
  = ["INSERT INTO users(name, age) VALUES('User 1', 10)";
     "INSERT INTO users(name, age) VALUES('User 2', 20)";
     "INSERT INTO users(name, age) VALUES('User 3', 30)"].
Proof.
  destruct (addUsers_statements (canned (inl "refused") (inl "refused")) 3 idle)
    as [Ht _]; [discriminate|].
  exact Ht.
Defined.

(** ** app.go: the connection string *)

(** X13.  [Initialize] joins the user, the password and the database
    name with a colon and with the two bytes at-sign and slash,
    escaping nothing: a colon in the user name cannot be told from the
    separator, so different credentials can give one connection
    string. *)
Theorem connectionString_is_ambiguous (user extra password dbname : string) :
  connectionString user password dbname
  = (user ++ ":" ++ password ++ "@/" ++ dbname)%string
  /\ connectionString (user ++ ":" ++ extra) password dbname
     = connectionString user (extra ++ ":" ++ password) dbname.
Proof.
  assert (H : forall u p d,
             connectionString u p d = (u ++ ":" ++ p ++ "@/" ++ d)%string).
  { intros u p d. unfold connectionString.
    cbn [fmt.Sprintf Ascii.eqb Bool.eqb String.append]. now rewrite append_empty. }
  split; [apply H|]. rewrite !H.
  assert (Hassoc : forall a b c : string, ((a ++ b) ++ c = a ++ (b ++ c))%string).
  { intros a b c. induction a as [|x a IH]; cbn; [reflexivity | now rewrite IH]. }
  rewrite !Hassoc. reflexivity.
Qed.

(** ** The variant with bind parameters on the PostgreSQL server *)

(** O'Brien, 30, into an empty table, and back. *)
Lemma param_round_trip_witness :
  let created :=
    model_createUser on_postgres {| ID := 0; Name := "O'Brien"; Age := 30 |} fresh in
  snd (model_getUser on_postgres (user_with_id (ID (fst (snd created)))) (fst created))
  = ({| ID := 1; Name := "O'Brien"; Age := 30 |}, None).
Proof.
  intros created.
  destruct (param_round_trip Server.empty_table [] {| ID := 0; Name := "O'Brien"; Age := 30 |}
              (Forall_nil _) eq_refl) as [_ H].
  exact H.
Defined.

Section OnPostgresHandlers.
Context (t : Server.Table) (sent : list sql.Call).

Lemma filter_has_id_removed (id : Z) (rows : list user) :
  filter (Server.has_id id) (filter (fun u => negb (Server.has_id id u)) rows) = [].
Proof.
  induction rows as [|u rows IH]; [reflexivity|]. cbn [filter].
  destruct (Server.has_id id u) eqn:E; cbn [negb filter]; [exact IH|].
  now rewrite E.
Qed.

(** A fetch on the PostgreSQL server returns the name and the age of
    the first row of that id. *)
Lemma param_getUser_found (id : Z) (u0 : user) (rest : list user) :
  filter (Server.has_id id) (Server.rows t) = u0 :: rest ->
  snd (model_getUser on_postgres (user_with_id id) {| sql.server := t; sql.sent := sent |})
  = ({| ID := id; Name := Name u0; Age := Age u0 |}, None).
Proof.
  intros Hrow. unfold on_postgres. cbn [model_getUser param_model].
  unfold ParamVariant.getUser, sql.QueryRow, sql.Query.
  cbn [sql.server sql.driver_Query sql.driver_Close Server.driver user_with_id ID].
  change (Server.run Server.PostgreSQL "SELECT name, age FROM users WHERE id=$1"
            [sql.Int id] t)
    with (Server.execute Server.PostgreSQL Server.SelectUser [sql.Int id] t).
  cbn [Server.execute snd sql.Row_Scan sql.delivered sql.failure Server.returned].
  rewrite Hrow. reflexivity.
Qed.

(** An update on the PostgreSQL server succeeds when the values fit the
    schema, and rewrites the rows of that id. *)
Lemma param_updateUser_rows (u : user) :
  Server.fits_schema (Name u) (Age u) = true ->
  let updated := model_updateUser on_postgres u {| sql.server := t; sql.sent := sent |} in
  snd updated = None
  /\ Server.rows (sql.server (fst updated))
     = map (fun u' => if Server.has_id (ID u) u'
                      then {| ID := ID u; Name := Name u; Age := Age u |} else u')
           (Server.rows t).
Proof.
  intros Hfits. unfold on_postgres. cbn [model_updateUser param_model].
  unfold ParamVariant.updateUser, sql.Exec.
  cbn [sql.server sql.driver_Exec Server.driver].
  change (Server.run Server.PostgreSQL "UPDATE users SET name=$1, age=$2 WHERE id=$3"
            [sql.Text (Name u); sql.Int (Age u); sql.Int (ID u)] t)
    with (Server.execute Server.PostgreSQL Server.UpdateUser
            [sql.Text (Name u); sql.Int (Age u); sql.Int (ID u)] t).
  cbn [Server.execute]. rewrite Hfits. cbn. split; reflexivity.
Qed.

Lemma filter_has_id_updated (id : Z) (new : user) (rows : list user) :
  ID new = id ->
  filter (Server.has_id id) (map (fun u' => if Server.has_id id u' then new else u') rows)
  = map (fun _ => new) (filter (Server.has_id id) rows).
Proof.
  intros Hnew. induction rows as [|u rows IH]; [reflexivity|]. cbn [map filter].
  destruct (Server.has_id id u) eqn:E.
  - assert (Hn : Server.has_id id new = true) by (unfold Server.has_id; lia).
    rewrite Hn. cbn [map]. now rewrite IH.
  - rewrite E. exact IH.
Qed.

(** Scanning the row the server sends for a user gives that user. *)
Lemma getUsers_loop_rows (us : list user) :
  forall l, getUsers_loop (map row_of us) (make l) = (make (l ++ us), None).
Proof.
  induction us as [|u us IH]; intros l; cbn [map getUsers_loop].
  - now rewrite app_nil_r.
  - destruct u as [id name age]. cbn. rewrite IH, <- app_assoc. reflexivity.
Qed.

End OnPostgresHandlers.

(** The handler of GET /user/{id}, once the id is read. *)
Lemma App_getUser_call {S : Type} (m : Model S) (r : http.Request) (db : sql.DB S)
      (id : Z) :
  strconv.Atoi (http.Vars_id r) = (id, None) ->
  snd (App.getUser m r db)
  = match snd (model_getUser m (user_with_id id) db) with
    | (_, Some ErrNoRows) => App.respondWithError http.StatusNotFound "User not found"
    | (_, Some e) => App.respondWithError http.StatusInternalServerError (Error e)
    | (u, None) => App.respondWithJSON http.StatusOK (json.of_user u)
    end.
Proof.
  intros Hid. unfold App.getUser. rewrite Hid. fold (user_with_id id).
  destruct (model_getUser m (user_with_id id) db) as [db' [u' [[|msg]|]]]; reflexivity.
Qed.

(** X15.  On the PostgreSQL server, DELETE /user/{id} is answered 200
    whether or not the table has a row of that id, and a GET of the
    same id right after it is answered 404. *)
Theorem param_delete_then_fetch (t : Server.Table) (sent : list sql.Call)
        (r : http.Request) (id : Z) :
  strconv.Atoi (http.Vars_id r) = (id, None) ->
  let deleted := App.deleteUser on_postgres r {| sql.server := t; sql.sent := sent |} in
  let fetched := App.getUser on_postgres r (fst deleted) in
  snd deleted = {| http.ContentType := "application/json";
                   http.Code := 200;
                   http.Written := js "{`result`:`success`}" |}
  /\ snd fetched = {| http.ContentType := "application/json";
                      http.Code := 404;
                      http.Written := js "{`error`:`User not found`}" |}.
Proof.
  intros Hid deleted fetched. subst fetched deleted.
  rewrite (App_deleteUser_call on_postgres r _ id Hid). cbn [fst snd].
  destruct (param_deleteUser_any_id t sent id) as [Herr Hrows].
  rewrite Herr. split; [reflexivity|].
  rewrite (App_getUser_call on_postgres r _ id Hid).
  destruct (fst (model_deleteUser on_postgres (user_with_id id)
                   {| sql.server := t; sql.sent := sent |})) as [t' sent'].
  cbn [sql.server] in Hrows.
  assert (Hnone : snd (snd (model_getUser on_postgres (user_with_id id)
                              {| sql.server := t'; sql.sent := sent' |})) = Some ErrNoRows).
  { apply param_getUser_no_row. rewrite Hrows. apply filter_has_id_removed. }
  destruct (snd (model_getUser on_postgres (user_with_id id) _)) as [u' err].
  cbn [snd] in Hnone. subst err. reflexivity.
Qed.

(** One user in the table: DELETE /user/1, then GET /user/1. *)
Lemma param_delete_then_fetch_witness :
  let db := Server.connect {| Server.rows := [{| ID := 1; Name := "User 1"; Age := 10 |}];
                              Server.next_id := 2;
                              Server.last_insert_id := 1 |} in
  let deleted := App.deleteUser on_postgres (request "1" "" "" no_body) db in
  http.Code (snd deleted) = 200
  /\ http.Code (snd (App.getUser on_postgres (request "1" "" "" no_body) (fst deleted))) = 404.
Proof.
  intros db deleted.
  destruct (param_delete_then_fetch
              {| Server.rows := [{| ID := 1; Name := "User 1"; Age := 10 |}];
                 Server.next_id := 2;
                 Server.last_insert_id := 1 |} [] (request "1" "" "" no_body) 1 eq_refl)
    as [Hd Hf].
  split; [exact (f_equal http.Code Hd) | exact (f_equal http.Code Hf)].
Defined.

(** X16.  On the PostgreSQL server, a PUT /user/{id} whose values fit
    the schema is answered 200 whether or not the table has a row of
    that id.  When it has, a GET of the id right after it returns the
    name and the age of the PUT; when it has not, the table is as
    before and the GET is answered 404. *)
Theorem param_update_then_fetch (t : Server.Table) (sent : list sql.Call)
        (r : http.Request) (id : Z) (u : user) :
  strconv.Atoi (http.Vars_id r) = (id, None) ->
  http.Body r = json.WellFormed u ->
  Server.fits_schema (Name u) (Age u) = true ->
  let given := {| ID := id; Name := Name u; Age := Age u |} in
  let updated := App.updateUser on_postgres r {| sql.server := t; sql.sent := sent |} in
  let fetched := App.getUser on_postgres r (fst updated) in
  snd updated = App.respondWithJSON http.StatusOK (json.of_user given)
  /\ (filter (Server.has_id id) (Server.rows t) <> [] ->
      snd fetched = App.respondWithJSON http.StatusOK (json.of_user given))
  /\ (filter (Server.has_id id) (Server.rows t) = [] ->
      Server.rows (sql.server (fst updated)) = Server.rows t
      /\ http.Code (snd fetched) = 404).
Proof.
  intros Hid Hbody Hfits given updated fetched. subst fetched updated.
  rewrite (App_updateUser_call on_postgres r _ id u Hid Hbody). cbn [fst snd].
  change (set_ID id u) with given.
  destruct (param_updateUser_rows t sent given Hfits) as [Herr Hrows].
  cbv zeta in Herr, Hrows. rewrite Herr. split; [reflexivity|].
  rewrite (App_getUser_call on_postgres r _ id Hid).
  destruct (fst (model_updateUser on_postgres given
                   {| sql.server := t; sql.sent := sent |})) as [t' sent'].
  cbn [sql.server] in Hrows.
  assert (Hfilter : filter (Server.has_id id) (Server.rows t')
                    = map (fun _ => given) (filter (Server.has_id id) (Server.rows t)))
    by (rewrite Hrows; exact (filter_has_id_updated id given (Server.rows t) eq_refl)).
  split.
  - intros Hsome. destruct (filter (Server.has_id id) (Server.rows t)) as [|u0 rest];
      [now elim Hsome|]. cbn [map] in Hfilter.
    rewrite (param_getUser_found t' sent' id _ _ Hfilter). reflexivity.
  - intros Hnone. rewrite Hnone in Hfilter. cbn [map] in Hfilter. split.
    + cbn [sql.server fst]. rewrite Hrows. change (ID given) with id. clear - Hnone.
      induction (Server.rows t) as [|u0 rows IH];
        [reflexivity|]. cbn [filter map] in *.
      destruct (Server.has_id id u0); [discriminate Hnone|]. now rewrite IH.
    + assert (Herr' : snd (snd (model_getUser on_postgres (user_with_id id)
                                  {| sql.server := t'; sql.sent := sent' |}))
                      = Some ErrNoRows) by now apply param_getUser_no_row.
      destruct (snd (model_getUser on_postgres (user_with_id id) _)) as [u' err].
      cbn [snd] in Herr'. subst err. reflexivity.
Qed.

(** The tutorial's update on the PostgreSQL server, then a fetch. *)
Lemma param_update_then_fetch_witness :
  let db := Server.connect {| Server.rows := [{| ID := 1; Name := "User 1"; Age := 10 |}];
                              Server.next_id := 2;
                              Server.last_insert_id := 1 |} in
  let put := request "1" "" ""
                     (json.WellFormed
                        {| ID := 0; Name := "test user - updated name"; Age := 21 |}) in
  snd (App.getUser on_postgres put (fst (App.updateUser on_postgres put db)))
  = {| http.ContentType := "application/json";
       http.Code := 200;
       http.Written := js "{`id`:1,`name`:`test user - updated name`,`age`:21}" |}.
Proof.
  intros db put.
  destruct (param_update_then_fetch
              {| Server.rows := [{| ID := 1; Name := "User 1"; Age := 10 |}];
                 Server.next_id := 2;
                 Server.last_insert_id := 1 |} [] put 1 _ eq_refl eq_refl eq_refl)
    as (_ & H & _).
  apply H. discriminate.
Defined.

(** X17.  On the PostgreSQL server, GET /users is answered 200 with the
    users of the table in the order of the table, from the one at
    position start on and count of them at most, where start and count
    are the values the handler passes on: so never more than 10. *)
Theorem param_list_window (t : Server.Table) (sent : list sql.Call) (r : http.Request) :
  let c := fst (strconv.Atoi (http.FormValue_count r)) in
  let s := fst (strconv.Atoi (http.FormValue_start r)) in
  let count := if ((1 <=? c) && (c <=? 10))%bool then c else 10 in
  let start := Z.max 0 s in
  let page := firstn (Z.to_nat count) (skipn (Z.to_nat start) (Server.rows t)) in
  snd (App.getUsers on_postgres r {| sql.server := t; sql.sent := sent |})
  = App.respondWithJSON http.StatusOK (json.of_users (make page))
  /\ (List.length page <= 10)%nat.
Proof.
  intros c s count start page.
  assert (Hcount : 1 <= count <= 10)
    by (subst count; destruct (1 <=? c) eqn:E1, (c <=? 10) eqn:E2; cbn; lia).
  assert (Hstart : 0 <= start) by (subst start; lia).
  split.
  - unfold App.getUsers. subst page count start c s.
    destruct (strconv.Atoi (http.FormValue_count r)) as [c ?].
    destruct (strconv.Atoi (http.FormValue_start r)) as [s ?]. cbn [fst] in *.
    replace (if ((10 <? c) || (c <? 1))%bool then 10 else c)
      with (if ((1 <=? c) && (c <=? 10))%bool then c else 10)
      by (destruct (1 <=? c) eqn:E1, (c <=? 10) eqn:E2, (10 <? c) eqn:E3, (c <? 1) eqn:E4;
          cbn; lia).
    replace (if s <? 0 then 0 else s) with (Z.max 0 s)
      by (destruct (s <? 0) eqn:E; lia).
    set (count := if ((1 <=? c) && (c <=? 10))%bool then c else 10) in *.
    set (start := Z.max 0 s) in *.
    unfold on_postgres. cbn [model_getUsers param_model].
    unfold ParamVariant.getUsers, sql.Query.
    cbn [sql.server sql.driver_Query sql.driver_Close Server.driver].
    change (Server.run Server.PostgreSQL
              "SELECT id, name, age FROM users LIMIT $1 OFFSET $2"
              [sql.Int count; sql.Int start] t)
      with (Server.execute Server.PostgreSQL Server.SelectUsers
              [sql.Int count; sql.Int start] t).
    cbn [Server.execute].
    replace ((0 <=? count) && (0 <=? start))%bool with true
      by (symmetry; apply andb_true_intro; split; apply Z.leb_le; lia).
    cbn [sql.delivered Server.returned].
    change (map (fun u : user =>
                   [Server.int_column Server.PostgreSQL (ID u); sql.Text (Name u);
                    Server.int_column Server.PostgreSQL (Age u)]))
      with (map row_of).
    rewrite (getUsers_loop_rows _ []). reflexivity.
  - subst page. rewrite length_firstn. lia.
Qed.
